(** * process_documents: the extraction-to-entity reconciliation pipeline

    A shallow embedding of [app/management/commands/process_documents.py]:
    the two text readers, the call to the model service, and the management
    command [handle] that reconciles every extracted record into the store
    inside one [transaction.atomic] block.

    Python values are an inductive type, the store is a record of tables, and
    the command is written in a small monad that threads the database
    connection, raises Python exceptions and records what is written to the
    console and which ORM calls are made. *)

From stdpp Require Import gmap strings list fin_maps.
From Stdlib Require Import ZArith Ascii Floats.SpecFloat.

Set Default Proof Using "Type".
Local Open Scope string_scope.
Local Open Scope list_scope.

(** ** Python values

    What [json.loads] can return, and what the attributes of a model instance
    can hold: [None], booleans, integers, floats, strings, lists and
    dictionaries.  A dictionary keeps its items in insertion order; its keys
    are distinct, so the first item with a given key is the only one. *)

#[warnings="-register-all"]
Inductive pyval : Type :=
  | PyNone
  | PyBool (b : bool)
  | PyInt (n : Z)
  | PyFloat (x : spec_float)
  | PyStr (s : string)
  | PyList (items : list pyval)
  | PyDict (items : list (string * pyval)).

(** The exceptions the command can meet.  [DatabaseError] stands for the
    errors of the database layer ([IntegrityError], [DataError]). *)
Inductive exn : Type :=
  | AttributeError
  | TypeError
  | DatabaseError
  | TransactionManagementError
  | CommandError.

(** [bool(v)], the test behind [if v] and [if not v]: [None], [False], a zero
    of either sign and an empty string, list or dictionary are false. *)
Definition truthy (v : pyval) : bool :=
  match v with
  | PyNone => false
  | PyBool b => b
  | PyInt n => negb (n =? 0)%Z
  | PyFloat (S754_zero _) => false
  | PyFloat _ => true
  | PyStr EmptyString => false
  | PyStr _ => true
  | PyList [] => false
  | PyList _ => true
  | PyDict [] => false
  | PyDict _ => true
  end.

Fixpoint assoc (key : string) (items : list (string * pyval)) : option pyval :=
  match items with
  | [] => None
  | (k, v) :: rest => if String.eqb k key then Some v else assoc key rest
  end.

(** [v.get(key, default)]: only a dictionary has the method. *)
Definition dict_get (v : pyval) (key : string) (fallback : pyval) : exn + pyval :=
  match v with
  | PyDict items => inr (default fallback (assoc key items))
  | _ => inl AttributeError
  end.

(** A Python [str] is a sequence of code points.  A [string] here holds its
    UTF-8 encoding, one [ascii] for each byte, so an item of the iteration
    over a text is the run of bytes of one code point: the byte that starts
    it and the bytes of the form 10xxxxxx that continue it. *)
Definition continuation (c : ascii) : bool :=
  let n := nat_of_ascii c in
  Nat.leb 128 n && Nat.ltb n 192.

(** The code points of [current] followed by [s], where [current] holds the
    bytes read so far of the code point in progress. *)
Fixpoint code_points (current : string) (s : string) : list string :=
  match s with
  | EmptyString => [current]
  | String c rest =>
      if continuation c
      then code_points (current +:+ String c EmptyString) rest
      else current :: code_points (String c EmptyString) rest
  end.

Definition chars (s : string) : list pyval :=
  match s with
  | EmptyString => []
  | String c rest => PyStr <$> code_points (String c EmptyString) rest
  end.

(** What [for item in v] visits: the elements of a list, the code points of a
    string, the keys of a dictionary; anything else is not iterable. *)
Definition py_iter (v : pyval) : exn + list pyval :=
  match v with
  | PyList items => inr items
  | PyStr s => inr (chars s)
  | PyDict items => inr ((fun kv => PyStr kv.1) <$> items)
  | _ => inl TypeError
  end.

(** ** Strings: [lower], [endswith], [join] *)

Definition lower_ascii (c : ascii) : ascii :=
  let n := nat_of_ascii c in
  if Nat.leb 65 n && Nat.leb n 90 then ascii_of_nat (n + 32) else c.

Fixpoint lower (s : string) : string :=
  match s with
  | EmptyString => EmptyString
  | String c rest => String (lower_ascii c) (lower rest)
  end.

Fixpoint endswith (s suffix : string) : bool :=
  String.eqb s suffix ||
  match s with
  | EmptyString => false
  | String _ rest => endswith rest suffix
  end.

(** The separator the readers use is written ["\\n"] in the source: a
    backslash followed by the letter n. *)
Definition backslash_n : string :=
  String (ascii_of_nat 92) (String (ascii_of_nat 110) EmptyString).

Fixpoint join (sep : string) (parts : list string) : string :=
  match parts with
  | [] => ""
  | [p] => p
  | p :: rest => p +:+ sep +:+ join sep rest
  end.

(** ** The store

    The command imports nine models from [app.models]: [Project] and eight
    lookup models.  It reads and assigns [project_name], [project_status],
    three single-valued references and five many-to-many attributes of a
    project, and looks lookup rows up by [name]. *)

Inductive lookup_model : Type :=
  | Sponsor | Deliverable | TherapeuticArea | IngredientCategory
  | Ingredient | ResponsibleParty | RouteOfAdmin | Demographics.

Inductive relation : Type :=
  | deliverables | therapeutic_areas | ingredient_categories
  | ingredients | demographics.

#[global] Instance lookup_model_eq_dec : EqDecision lookup_model.
Proof. solve_decision. Defined.

#[global] Instance relation_eq_dec : EqDecision relation.
Proof. solve_decision. Defined.

(** The model behind each many-to-many attribute of [Project]. *)
Definition related_model (r : relation) : lookup_model :=
  match r with
  | deliverables => Deliverable
  | therapeutic_areas => TherapeuticArea
  | ingredient_categories => IngredientCategory
  | ingredients => Ingredient
  | demographics => Demographics
  end.

(** The extraction key that feeds each many-to-many attribute. *)
Definition relation_key (r : relation) : string :=
  match r with
  | deliverables => "deliverables"
  | therapeutic_areas => "therapeutic_areas"
  | ingredient_categories => "ingredient_categories"
  | ingredients => "ingredients"
  | demographics => "demographics"
  end.

(** Modelled from the spec: [app/models.py], which declares the models, is
    not among the sources.  After section 3 of the specification a project
    has a display name, a status label, optional references to a sponsor, a
    responsible party and a route of administration, and five independent
    many-to-many sets; a lookup row has nothing but its unique name, so a
    reference holds that name.  A text column holds a text or NULL. *)
Record Project : Type := mkProject {
  project_name : option string;
  project_status : option string;
  sponsor : option string;
  responsible_party : option string;
  route_of_admin : option string;
  deliverables_set : list string;
  therapeutic_areas_set : list string;
  ingredient_categories_set : list string;
  ingredients_set : list string;
  demographics_set : list string
}.

Definition related (r : relation) (row : Project) : list string :=
  match r with
  | deliverables => deliverables_set row
  | therapeutic_areas => therapeutic_areas_set row
  | ingredient_categories => ingredient_categories_set row
  | ingredients => ingredients_set row
  | demographics => demographics_set row
  end.

Definition set_related (r : relation) (names : list string) (row : Project) : Project :=
  match r with
  | deliverables =>
      mkProject (project_name row) (project_status row) (sponsor row)
        (responsible_party row) (route_of_admin row)
        names (therapeutic_areas_set row) (ingredient_categories_set row)
        (ingredients_set row) (demographics_set row)
  | therapeutic_areas =>
      mkProject (project_name row) (project_status row) (sponsor row)
        (responsible_party row) (route_of_admin row)
        (deliverables_set row) names (ingredient_categories_set row)
        (ingredients_set row) (demographics_set row)
  | ingredient_categories =>
      mkProject (project_name row) (project_status row) (sponsor row)
        (responsible_party row) (route_of_admin row)
        (deliverables_set row) (therapeutic_areas_set row) names
        (ingredients_set row) (demographics_set row)
  | ingredients =>
      mkProject (project_name row) (project_status row) (sponsor row)
        (responsible_party row) (route_of_admin row)
        (deliverables_set row) (therapeutic_areas_set row)
        (ingredient_categories_set row) names (demographics_set row)
  | demographics =>
      mkProject (project_name row) (project_status row) (sponsor row)
        (responsible_party row) (route_of_admin row)
        (deliverables_set row) (therapeutic_areas_set row)
        (ingredient_categories_set row) (ingredients_set row) names
  end.

(** Modelled from the spec: [app/models.py] is not among the sources.  After
    section 3 of the specification [project_id] is globally unique and is the
    key of the project table, and lookup rows are identified by their name.
    [dictionary] holds the rows of the eight lookup tables in the order they
    were inserted, each tagged with its model; that no name occurs twice in a
    table is not built in, it is what get-or-create has to maintain. *)
Record Store : Type := mkStore {
  projects : gmap string Project;
  dictionary : list (lookup_model * string)
}.

Definition empty_store : Store := mkStore ∅ [].

(** The connection inside the [atomic] block: the store as the transaction
    sees it, and Django's [needs_rollback] mark. *)
Record Conn : Type := mkConn {
  db : Store;
  needs_rollback : bool
}.

(** ** What the outside can observe *)

Inductive stream : Type := stdout | stderr.
Inductive style : Type := SUCCESS | ERROR | WARNING | NOTICE.

(** The lines the command writes; the f-string arguments are the
    constructor arguments. *)
Inductive message : Type :=
  | Starting (directory_path : string)
  | ProcessingDocx (filename : string)
  | ProcessingPdf (filename : string)
  | Extracting
  | FailedToExtract (filename : string)
  | SkippingNoProjectId (filename : string)
  | CreatedNewProject (project_id : pyval)
  | FoundExistingUpdating (project_id : pyval)
  | SkippingExisting (project_id : pyval)
  | SuccessfullyProcessed (project_id : pyval)
  | DatabaseErrorFor (filename : string) (e : exn)
  | ProcessingComplete
  | ErrorReadingDocx (filename : string)
  | ErrorReadingPdf (filename : string)
  | ApiError
  | JsonDecodeError (json_string : string).

(** One call into the ORM. *)
Inductive orm_call : Type :=
  | ProjectGetOrCreate
  | LookupGetOrCreate (model : lookup_model)
  | ProjectSave
  | RelatedClear (r : relation)
  | RelatedAdd (r : relation).

Inductive event : Type :=
  | Write (out : stream) (sty : option style) (m : message)
  | Print (m : message)
  | Orm (call : orm_call).

(** ** The command monad *)

Definition M (A : Type) : Type := Conn -> (exn + A) * Conn * list event.

Definition ret {A} (a : A) : M A := fun c => (inr a, c, []).

Definition raise {A} (e : exn) : M A := fun c => (inl e, c, []).

Definition bind {A B} (m : M A) (k : A -> M B) : M B := fun c =>
  match m c with
  | (inl e, c1, t1) => (inl e, c1, t1)
  | (inr a, c1, t1) =>
      match k a c1 with
      | (r, c2, t2) => (r, c2, t1 ++ t2)
      end
  end.

Declare Scope command_scope.
Delimit Scope command_scope with command.
Notation "x <- m ;; k" := (bind m (fun x => k))
  (at level 100, m at next level, right associativity) : command_scope.
Notation "m ;; k" := (bind m (fun _ => k))
  (at level 100, right associativity) : command_scope.
Local Open Scope command_scope.

Definition lift {A} (r : exn + A) : M A :=
  match r with inl e => raise e | inr a => ret a end.

Definition emit (e : event) : M unit := fun c => (inr tt, c, [e]).

Definition write (out : stream) (sty : option style) (m : message) : M unit :=
  emit (Write out sty m).

Definition print (m : message) : M unit := emit (Print m).

(** [try: body except Exception as e: handler e] *)
Definition try_except {A} (body : M A) (handler : exn -> M A) : M A := fun c =>
  match body c with
  | (inl e, c1, t1) =>
      match handler e c1 with
      | (r, c2, t2) => (r, c2, t1 ++ t2)
      end
  | ok => ok
  end.

Fixpoint for_each {A} (items : list A) (body : A -> M unit) : M unit :=
  match items with
  | [] => ret tt
  | x :: rest => body x ;; for_each rest body
  end.

Definition get_db : M Store := fun c => (inr (db c), c, []).

Definition put_db (s : Store) : M unit := fun c =>
  (inr tt, mkConn s (needs_rollback c), []).

Definition mark_for_rollback : M unit := fun c =>
  (inr tt, mkConn (db c) true, []).

(** Every ORM call reaches the cursor, which refuses to run a query once the
    transaction is marked for rollback. *)
Definition execute (call : orm_call) : M unit := fun c =>
  (if needs_rollback c then inl TransactionManagementError else inr tt,
   c, [Orm call]).

(** ** The schema

    [app/models.py] is not part of the sources.  A Python [str] given to a
    text field is stored as it is; what the fields do with any other Python
    value, whether the two scalar columns of [Project] accept NULL, and the
    default of [project_status] are left open as a [Schema].  [None] as an
    answer means that the database layer raises. *)

Inductive column : Type := project_name_column | project_status_column.

Record Schema : Type := mkSchema {
  id_text : pyval -> option string;
  name_text : lookup_model -> pyval -> option string;
  column_text : column -> pyval -> option string;
  nullable : column -> bool;
  status_default : option string
}.

(** The Python value of a text column read back from the store. *)
Definition from_db (v : option string) : pyval :=
  match v with Some s => PyStr s | None => PyNone end.

(** A model instance of [Project] in memory: the key of its row and the
    attributes the command reads and assigns. *)
Record ProjectInstance : Type := mkInstance {
  pk : string;
  attr_project_id : pyval;
  attr_project_name : pyval;
  attr_project_status : pyval;
  attr_sponsor : option string;
  attr_responsible_party : option string;
  attr_route_of_admin : option string
}.

Definition set_project_name (v : pyval) (p : ProjectInstance) : ProjectInstance :=
  mkInstance (pk p) (attr_project_id p) v (attr_project_status p)
    (attr_sponsor p) (attr_responsible_party p) (attr_route_of_admin p).

Definition set_project_status (v : pyval) (p : ProjectInstance) : ProjectInstance :=
  mkInstance (pk p) (attr_project_id p) (attr_project_name p) v
    (attr_sponsor p) (attr_responsible_party p) (attr_route_of_admin p).

Definition set_sponsor (row : string) (p : ProjectInstance) : ProjectInstance :=
  mkInstance (pk p) (attr_project_id p) (attr_project_name p)
    (attr_project_status p) (Some row) (attr_responsible_party p)
    (attr_route_of_admin p).

Definition set_responsible_party (row : string) (p : ProjectInstance) : ProjectInstance :=
  mkInstance (pk p) (attr_project_id p) (attr_project_name p)
    (attr_project_status p) (attr_sponsor p) (Some row) (attr_route_of_admin p).

Definition set_route_of_admin (row : string) (p : ProjectInstance) : ProjectInstance :=
  mkInstance (pk p) (attr_project_id p) (attr_project_name p)
    (attr_project_status p) (attr_sponsor p) (attr_responsible_party p)
    (Some row).

(** The instance built from a row that was found. *)
Definition fetched (k : string) (row : Project) : ProjectInstance :=
  mkInstance k (PyStr k) (from_db (project_name row))
    (from_db (project_status row)) (sponsor row) (responsible_party row)
    (route_of_admin row).

(** Pure updates of the store: the effect of a statement that succeeds. *)

(** Find the row of model [t] named [n], else insert it.  Names are compared
    as they are, character for character (the [exact] lookup of the ORM). *)
Definition dict_add (t : lookup_model) (n : string)
    (rows : list (lookup_model * string)) : list (lookup_model * string) :=
  if decide ((t, n) ∈ rows) then rows else rows ++ [(t, n)].

Definition add_lookup (t : lookup_model) (n : string) (s : Store) : Store :=
  mkStore (projects s) (dict_add t n (dictionary s)).

Definition update_project (k : string) (f : Project -> Project) (s : Store) : Store :=
  mkStore (alter f k (projects s)) (dictionary s).

Definition insert_project (k : string) (row : Project) (s : Store) : Store :=
  mkStore (<[k := row]> (projects s)) (dictionary s).

Definition add_name (n : string) (names : list string) : list string :=
  if decide (n ∈ names) then names else names ++ [n].

(** What [save] writes: the two scalar columns and the three foreign keys;
    the many-to-many sets live in their own tables and are not touched. *)
Definition write_fields (n st : option string) (p : ProjectInstance)
    (row : Project) : Project :=
  mkProject n st (attr_sponsor p) (attr_responsible_party p)
    (attr_route_of_admin p)
    (deliverables_set row) (therapeutic_areas_set row)
    (ingredient_categories_set row) (ingredients_set row)
    (demographics_set row).

Definition modify_db (f : Store -> Store) : M unit :=
  (s <- get_db ;; put_db (f s))%command.

(** ** Reading the store and the trace *)

(** The two rows agree on every column that [save] writes. *)
Definition same_fields (row row' : Project) : Prop :=
  project_name row' = project_name row ∧
  project_status row' = project_status row ∧
  sponsor row' = sponsor row ∧
  responsible_party row' = responsible_party row ∧
  route_of_admin row' = route_of_admin row.

(** The names related to project [k] through [r]; none if there is no such
    project. *)
Definition project_related (k : string) (r : relation) (s : Store) : list string :=
  match projects s !! k with
  | Some row => related r row
  | None => []
  end.

(** The sponsor row project [k] points to, if any. *)
Definition project_sponsor (k : string) (s : Store) : option string :=
  match projects s !! k with
  | Some row => sponsor row
  | None => None
  end.

(** The responsible party and the route of administration project [k] points
    to, if any. *)
Definition project_responsible_party (k : string) (s : Store) : option string :=
  match projects s !! k with
  | Some row => responsible_party row
  | None => None
  end.

Definition project_route_of_admin (k : string) (s : Store) : option string :=
  match projects s !! k with
  | Some row => route_of_admin row
  | None => None
  end.

(** Every row a project points to exists: its three references and the
    members of its five sets are names of rows of the right lookup table. *)
Definition row_resolved (row : Project) (rows : list (lookup_model * string)) : Prop :=
  (∀ n, sponsor row = Some n → (Sponsor, n) ∈ rows) ∧
  (∀ n, responsible_party row = Some n → (ResponsibleParty, n) ∈ rows) ∧
  (∀ n, route_of_admin row = Some n → (RouteOfAdmin, n) ∈ rows) ∧
  (∀ r n, n ∈ related r row → (related_model r, n) ∈ rows).

Definition references_resolve (s : Store) : Prop :=
  ∀ k row, projects s !! k = Some row → row_resolved row (dictionary s).


Definition orm_calls (trace : list event) : list orm_call :=
  omap (fun e => match e with Orm call => Some call | _ => None end) trace.

(** The outcome a line of the trace reports for a document, if any. *)
Inductive outcome : Type := created | updated | skipped | failed.

#[global] Instance outcome_eq_dec : EqDecision outcome.
Proof. solve_decision. Defined.

Definition reported (e : event) : option outcome :=
  match e with
  | Write _ _ (CreatedNewProject _) => Some created
  | Write _ _ (FoundExistingUpdating _) => Some updated
  | Write _ _ (SkippingNoProjectId _) => Some skipped
  | Write _ _ (SkippingExisting _) => Some skipped
  | Write _ _ (FailedToExtract _) => Some failed
  | Write _ _ (DatabaseErrorFor _ _) => Some failed
  | _ => None
  end.

Definition count_reported (o : outcome) (trace : list event) : nat :=
  length (filter (fun e => reported e = Some o) trace).

(** The lines that end the turn of a document that was sent to the model
    service: lines 133, 140, 153, 216 and 219. *)
Definition closing (e : event) : bool :=
  match e with
  | Write _ _ (FailedToExtract _)
  | Write _ _ (SkippingNoProjectId _)
  | Write _ _ (SkippingExisting _)
  | Write _ _ (SuccessfullyProcessed _)
  | Write _ _ (DatabaseErrorFor _ _) => true
  | _ => false
  end.

(** A command that writes no such line. *)
Definition quiet {A} (m : M A) : Prop :=
  ∀ c, Forall (λ e, closing e = false) (m c).2.

(** A command that writes one such line, as its last, when it returns, and
    none when it raises. *)
Definition closes {A} (m : M A) : Prop :=
  ∀ c, match (m c).1.1 with
       | inl _ => Forall (λ e, closing e = false) (m c).2
       | inr _ =>
           ∃ t0 e, (m c).2 = t0 ++ [e] ∧ closing e = true ∧
                   Forall (λ x, closing x = false) t0
       end.

(** The lines of a trace that end a turn, in the order they were written. *)
Definition closing_lines (trace : list event) : list event :=
  filter (λ e, closing e = true) trace.

(** ** Sample data

    A schema whose text fields take nothing but a [str], with
    [project_status] defaulting to the empty string; a few extracted records
    with the JSON text that decodes to them; and a decoder that knows these
    texts. *)

Definition text_only : Schema :=
  mkSchema (fun _ => None) (fun _ _ => None) (fun _ _ => None) (fun _ => false)
    (Some "").

Definition quoted (s : string) : string :=
  String (ascii_of_nat 34) s +:+ String (ascii_of_nat 34) EmptyString.

Definition member (key value : string) : string := quoted key +:+ ": " +:+ value.

Definition object (members : list string) : string :=
  "{" +:+ join ", " members +:+ "}".

Definition array (elements : list string) : string :=
  "[" +:+ join ", " elements +:+ "]".

Definition decode (table : list (string * pyval)) (s : string) : option pyval :=
  assoc s table.

Definition a_row (name status : string) (names : list string) : Project :=
  mkProject (Some name) (Some status) None None None names [] [] [] [].

(** A store with one project, [P1], whose deliverables are A and B. *)
Definition store_AB : Store :=
  mkStore {["P1" := a_row "Trial X" "Active" ["A"; "B"]]}
    [(Deliverable, "A"); (Deliverable, "B")].

Definition record_C : pyval :=
  PyDict [("project_id", PyStr "P1"); ("deliverables", PyList [PyStr "C"])].

Definition record_null_name : pyval :=
  PyDict [("project_id", PyStr "P1"); ("project_name", PyNone)].

Definition record_text : pyval :=
  PyDict [("project_id", PyStr "P1"); ("deliverables", PyStr "ab")].

Definition record_number : pyval :=
  PyDict [("project_id", PyStr "P1"); ("deliverables", PyInt 5)].

Definition text_number : string :=
  object [member "project_id" (quoted "P1"); member "deliverables" "5"].

Definition record_acme : pyval :=
  PyDict [("project_id", PyStr "P1"); ("sponsor_name", PyStr "Acme");
          ("ingredients", PyList [PyStr "Compound A"])].

Definition text_acme : string :=
  object [member "project_id" (quoted "P1");
          member "sponsor_name" (quoted "Acme");
          member "ingredients" (array [quoted "Compound A"])].

Definition record_acme_upper : pyval :=
  PyDict [("project_id", PyStr "P2"); ("sponsor_name", PyStr "ACME")].

Definition text_acme_upper : string :=
  object [member "project_id" (quoted "P2");
          member "sponsor_name" (quoted "ACME")].

Definition record_acme_space : pyval :=
  PyDict [("project_id", PyStr "P3"); ("sponsor_name", PyStr " Acme")].

Definition text_acme_space : string :=
  object [member "project_id" (quoted "P3");
          member "sponsor_name" (quoted " Acme")].


Definition record_no_id : pyval :=
  PyDict [("project_name", PyStr "Trial X"); ("project_id", PyNone)].

Definition text_no_id : string :=
  object [member "project_name" (quoted "Trial X"); member "project_id" "null"].

Definition record_renamed : pyval :=
  PyDict [("project_id", PyStr "P1"); ("project_name", PyStr "Trial Y")].

Definition text_renamed : string :=
  object [member "project_id" (quoted "P1");
          member "project_name" (quoted "Trial Y")].

Definition sample_loads : string -> option pyval :=
  decode [(text_number, record_number); (text_acme, record_acme);
          (text_acme_upper, record_acme_upper);
          (text_acme_space, record_acme_space); (text_no_id, record_no_id);
          (text_renamed, record_renamed); ("{}", PyDict [])].

(** The world around one directory entry: its name, what the parsing
    library yields for it (paragraph texts for python-docx, page texts for
    PyPDF2; [None] when it raises), and how the model service answers the
    request made for it.  [RequestException] stands for every failure that
    [requests] reports as one: no connection, a timeout, a status refused by
    [raise_for_status], a body that is not JSON.  [Response] carries the
    decoded body. *)
Inductive http_result : Type :=
  | RequestException
  | Response (response_data : pyval).

Record File : Type := mkFile {
  filename : string;
  parsed : option (list string);
  reply : http_result
}.

(** Sample files: a document whose one paragraph was read and for which the
    model service replied with the given payload; a reply without the
    "response" key; an entry that is not a document. *)
Definition docx (name payload : string) : File :=
  mkFile name (Some ["Protocol synopsis"])
    (Response (PyDict [("response", PyStr payload)])).

Definition file_acme : File := docx "acme.docx" text_acme.
Definition file_acme_upper : File := docx "acme-upper.DOCX" text_acme_upper.
Definition file_no_id : File := docx "untitled.docx" text_no_id.
Definition file_renamed : File := docx "proj1-v2.docx" text_renamed.
Definition file_empty_object : File := docx "empty.docx" "{}".

Definition file_no_response : File :=
  mkFile "bare.pdf" (Some ["Page one"]) (Response (PyDict [("done", PyBool true)])).

Definition file_notes : File := mkFile "notes.txt" None RequestException.

(** More sample data: a record whose status is null, the items of a record
    that names a sponsor and a route, a payload that decodes to a list, a
    payload that is not JSON, a reply whose body is a list, a request that
    fails, a directory entry named in capitals and a PDF without text. *)
Definition record_null_status : pyval :=
  PyDict [("project_id", PyStr "P9"); ("project_status", PyNone)].

Definition text_null_status : string :=
  object [member "project_id" (quoted "P9"); member "project_status" "null"].

Definition items_full : list (string * pyval) :=
  [("project_id", PyStr "P7"); ("project_name", PyStr "Trial Z");
   ("sponsor_name", PyStr "Acme"); ("responsible_party", PyNone);
   ("route_of_admin", PyStr "Oral");
   ("deliverables", PyList [PyStr "Report"])].

Definition items_renamed : list (string * pyval) :=
  [("project_id", PyStr "P1"); ("project_name", PyStr "Trial Y")].

(** Items of three more records for project P1: one that lists an ingredient
    and says nothing of the deliverables, one whose deliverables are a number
    and that lists an ingredient, and one whose list of deliverables holds a
    null between two names. *)
Definition items_ingredient : list (string * pyval) :=
  [("project_id", PyStr "P1"); ("ingredients", PyList [PyStr "X"])].


Definition items_null_between : list (string * pyval) :=
  [("project_id", PyStr "P1");
   ("deliverables", PyList [PyStr "C"; PyNone; PyStr "D"])].

Definition more_loads : string -> option pyval :=
  decode [(text_acme, record_acme); (text_null_status, record_null_status);
          (text_renamed, record_renamed); (array ["1"], PyList [PyInt 1]);
          ("{}", PyDict [])].

Definition file_null_status : File := docx "p9.docx" text_null_status.
Definition file_array_payload : File := docx "list.docx" (array ["1"]).
Definition file_bad_json : File := docx "garbled.docx" "Sure, here is the JSON".

Definition file_list_reply : File :=
  mkFile "odd.docx" (Some ["Protocol synopsis"]) (Response (PyList [])).

Definition file_offline : File :=
  mkFile "offline.pdf" (Some ["Page one"]) RequestException.

Definition file_capitals : File :=
  mkFile "REPORT.Docx" (Some ["First"; "Second"]) RequestException.

Definition file_blank_pdf : File :=
  mkFile "scan.pdf" (Some [""; ""]) RequestException.

(** [extracted_data.get('<relation>', [])] *)
Definition relation_value (items : list (string * pyval)) (r : relation) : pyval :=
  default (PyList []) (assoc (relation_key r) items).

Section Command.

Variable schema : Schema.

(** [json.loads]; [None] stands for [JSONDecodeError]. *)
Variable json_loads : string -> option pyval.

Definition prep_id (v : pyval) : option string :=
  match v with PyStr s => Some s | _ => id_text schema v end.

Definition prep_name (t : lookup_model) (v : pyval) : option string :=
  match v with PyStr s => Some s | _ => name_text schema t v end.

(** The value a scalar column of [Project] receives: [Some None] is NULL. *)
Definition prep_column (col : column) (v : pyval) : option (option string) :=
  match v with
  | PyStr s => Some (Some s)
  | PyNone => if nullable schema col then Some None else None
  | _ => Some <$> column_text schema col v
  end.

(** *** The ORM calls *)

(** [Project.objects.get_or_create(project_id=..., defaults={'project_name': ...})]:
    the row is looked up by its key; if there is none it is inserted inside a
    savepoint, so a refused insert leaves the transaction usable. *)
Definition Project_get_or_create (project_id_val default_name : pyval)
    : M (ProjectInstance * bool) :=
  execute ProjectGetOrCreate ;;
  match prep_id project_id_val with
  | None => raise DatabaseError
  | Some k =>
      s <- get_db ;;
      match projects s !! k with
      | Some row => ret (fetched k row, false)
      | None =>
          match prep_column project_name_column default_name,
                prep_column project_status_column
                  (from_db (status_default schema)) with
          | Some n, Some st =>
              put_db (insert_project k (mkProject n st None None None [] [] [] [] []) s) ;;
              ret (mkInstance k project_id_val default_name
                     (from_db (status_default schema)) None None None, true)
          | _, _ => raise DatabaseError
          end
      end
  end.

(** [Model.objects.get_or_create(name=...)] on a lookup model. *)
Definition get_or_create (t : lookup_model) (name : pyval) : M string :=
  execute (LookupGetOrCreate t) ;;
  match prep_name t name with
  | None => raise DatabaseError
  | Some n => modify_db (add_lookup t n) ;; ret n
  end.

(** [project.save()]: an UPDATE of the row; there is no savepoint around it,
    so a refused statement marks the whole transaction for rollback. *)
Definition save (project : ProjectInstance) : M unit :=
  execute ProjectSave ;;
  match prep_column project_name_column (attr_project_name project),
        prep_column project_status_column (attr_project_status project) with
  | Some n, Some st =>
      modify_db (update_project (pk project) (write_fields n st project))
  | _, _ => mark_for_rollback ;; raise DatabaseError
  end.

(** [project.<r>.clear()] *)
Definition related_clear (project : ProjectInstance) (r : relation) : M unit :=
  execute (RelatedClear r) ;;
  modify_db (update_project (pk project) (set_related r [])).

(** [project.<r>.add(item)] *)
Definition related_add (project : ProjectInstance) (r : relation) (item : string)
    : M unit :=
  execute (RelatedAdd r) ;;
  modify_db (update_project (pk project)
               (fun row => set_related r (add_name item (related r row)) row)).

(** *** Text extraction *)

Definition extract_text_from_docx (f : File) : M pyval :=
  match parsed f with
  | Some paragraphs => ret (PyStr (join backslash_n paragraphs))
  | None => print (ErrorReadingDocx (filename f)) ;; ret PyNone
  end.

Fixpoint pdf_text (text : string) (pages : list string) : string :=
  match pages with
  | [] => text
  | page_text :: rest =>
      if truthy (PyStr page_text)
      then pdf_text (text +:+ page_text +:+ backslash_n) rest
      else pdf_text text rest
  end.

Definition extract_text_from_pdf (f : File) : M pyval :=
  match parsed f with
  | Some pages => ret (PyStr (pdf_text "" pages))
  | None => print (ErrorReadingPdf (filename f)) ;; ret PyNone
  end.

(** *** The model service

    The request carries the first 8000 characters of the text; the answer is
    the [reply] of the file.  A [RequestException] and a [JSONDecodeError] are
    caught and give [None]; nothing else is caught here. *)
Definition call_phi3_for_extraction (answer : http_result) : M pyval :=
  match answer with
  | RequestException => print ApiError ;; ret PyNone
  | Response response_data =>
      json_string <- lift (dict_get response_data "response" (PyStr "{}")) ;;
      match json_string with
      | PyStr s =>
          match json_loads s with
          | Some v => ret v
          | None => print (JsonDecodeError s) ;; ret PyNone
          end
      | _ => raise TypeError
      end
  end.

(** *** The command *)

(** Lines 163-165, 168-170, 173-175: a single-valued reference. *)
Definition assign_lookup (key : string) (t : lookup_model)
    (setter : string -> ProjectInstance -> ProjectInstance)
    (extracted_data : pyval) (project : ProjectInstance) : M ProjectInstance :=
  name <- lift (dict_get extracted_data key PyNone) ;;
  if truthy name then
    row <- get_or_create t name ;;
    ret (setter row project)
  else ret project.

(** Lines 182-186 and the four blocks after it: a many-to-many attribute. *)
Definition replace_related (r : relation) (extracted_data : pyval)
    (project : ProjectInstance) : M unit :=
  items <- lift (dict_get extracted_data (relation_key r) (PyList [])) ;;
  if truthy items then
    related_clear project r ;;
    item_names <- lift (py_iter items) ;;
    for_each item_names (fun item_name =>
      item <- get_or_create (related_model r) item_name ;;
      related_add project r item)
  else ret tt.

(** Lines 156-216: what is done to a project that was created or is to be
    updated. *)
Definition apply_extraction (extracted_data : pyval) (project : ProjectInstance)
    : M unit :=
  name <- lift (dict_get extracted_data "project_name" (attr_project_name project)) ;;
  status <- lift (dict_get extracted_data "project_status" (attr_project_status project)) ;;
  let project := set_project_status status (set_project_name name project) in
  project <- assign_lookup "sponsor_name" Sponsor set_sponsor extracted_data project ;;
  project <- assign_lookup "responsible_party" ResponsibleParty
               set_responsible_party extracted_data project ;;
  project <- assign_lookup "route_of_admin" RouteOfAdmin
               set_route_of_admin extracted_data project ;;
  save project ;;
  replace_related deliverables extracted_data project ;;
  replace_related therapeutic_areas extracted_data project ;;
  replace_related ingredient_categories extracted_data project ;;
  replace_related ingredients extracted_data project ;;
  replace_related demographics extracted_data project ;;
  write stdout (Some SUCCESS) (SuccessfullyProcessed (attr_project_id project)).

(** Lines 137-216: the body of the [try]. *)
Definition reconcile (update_existing : bool) (name : string)
    (extracted_data : pyval) : M unit :=
  project_id_val <- lift (dict_get extracted_data "project_id" PyNone) ;;
  if negb (truthy project_id_val) then
    write stderr (Some WARNING) (SkippingNoProjectId name)
  else
    default_name <- lift (dict_get extracted_data "project_name" (PyStr "")) ;;
    found <- Project_get_or_create project_id_val default_name ;;
    let project := found.1 in
    let created := found.2 in
    if created then
      write stdout (Some SUCCESS) (CreatedNewProject (attr_project_id project)) ;;
      apply_extraction extracted_data project
    else if update_existing then
      write stdout (Some NOTICE) (FoundExistingUpdating (attr_project_id project)) ;;
      apply_extraction extracted_data project
    else
      write stdout (Some WARNING) (SkippingExisting (attr_project_id project)).

(** Lines 117-124: the reader is chosen by the extension. *)
Definition read_text (f : File) : M pyval :=
  if endswith (lower (filename f)) ".docx" then
    write stdout None (ProcessingDocx (filename f)) ;;
    extract_text_from_docx f
  else if endswith (lower (filename f)) ".pdf" then
    write stdout None (ProcessingPdf (filename f)) ;;
    extract_text_from_pdf f
  else ret PyNone.

(** Lines 116-219: one turn of the loop over the directory. *)
Definition process_file (update_existing : bool) (f : File) : M unit :=
  raw_text <- read_text f ;;
  if negb (truthy raw_text) then ret tt
  else
    write stdout None Extracting ;;
    extracted_data <- call_phi3_for_extraction (reply f) ;;
    if negb (truthy extracted_data) then
      write stderr (Some ERROR) (FailedToExtract (filename f))
    else
      try_except (reconcile update_existing (filename f) extracted_data)
        (fun e => write stderr (Some ERROR) (DatabaseErrorFor (filename f) e)).

(** Lines 107-221 without the decorator.  [listing] is [None] when
    [os.path.isdir] is false. *)
Definition handle_body (directory_path : string) (listing : option (list File))
    (update_existing : bool) : M unit :=
  match listing with
  | None => raise CommandError
  | Some entries =>
      write stdout (Some SUCCESS) (Starting directory_path) ;;
      for_each entries (process_file update_existing) ;;
      write stdout (Some SUCCESS) ProcessingComplete
  end.

(** [@transaction.atomic]: the body runs on a fresh transaction; its changes
    are committed when it returns and the transaction is not marked for
    rollback, and are undone otherwise.  The result is the outcome of the
    call, the committed store and everything that was observed. *)
Definition atomic {A} (body : M A) (s0 : Store) : (exn + A) * Store * list event :=
  match body (mkConn s0 false) with
  | (inr a, c, t) => (inr a, if needs_rollback c then s0 else db c, t)
  | (inl e, _, t) => (inl e, s0, t)
  end.

Definition handle (directory_path : string) (listing : option (list File))
    (update_existing : bool) (s0 : Store) : (exn + unit) * Store * list event :=
  atomic (handle_body directory_path listing update_existing) s0.

(** ** The effect of the command on one project row

    The same steps as [assign_lookup], [replace_related] and
    [apply_extraction], written as functions of the project row and of the
    lookup rows alone.  [exec_apply_extraction] below proves that the command
    computes them. *)

Definition lookup_step (key : string) (t : lookup_model)
    (items : list (string * pyval)) (rows : list (lookup_model * string))
    : (exn + option string) * list (lookup_model * string) :=
  let name := default PyNone (assoc key items) in
  if truthy name then
    match prep_name t name with
    | None => (inl DatabaseError, rows)
    | Some n => (inr (Some n), dict_add t n rows)
    end
  else (inr None, rows).

(** The reference after a step: the row just resolved, or the one the
    instance already had. *)
Definition supplied_or (o attr : option string) : option string :=
  match o with Some n => Some n | None => attr end.

Fixpoint link (t : lookup_model) (item_names : list pyval) (names : list string)
    (rows : list (lookup_model * string))
    : (exn + unit) * list string * list (lookup_model * string) :=
  match item_names with
  | [] => (inr tt, names, rows)
  | item_name :: rest =>
      match prep_name t item_name with
      | None => (inl DatabaseError, names, rows)
      | Some n => link t rest (add_name n names) (dict_add t n rows)
      end
  end.

Definition related_step (r : relation) (items : list (string * pyval))
    (row : Project) (rows : list (lookup_model * string))
    : (exn + unit) * Project * list (lookup_model * string) :=
  let v := default (PyList []) (assoc (relation_key r) items) in
  if truthy v then
    match py_iter v with
    | inl e => (inl e, set_related r [] row, rows)
    | inr item_names =>
        match link (related_model r) item_names [] rows with
        | (res, names, rows') => (res, set_related r names row, rows')
        end
    end
  else (inr tt, row, rows).

Fixpoint related_steps (rs : list relation) (items : list (string * pyval))
    (row : Project) (rows : list (lookup_model * string))
    : (exn + unit) * Project * list (lookup_model * string) :=
  match rs with
  | [] => (inr tt, row, rows)
  | r :: rest =>
      match related_step r items row rows with
      | (inl e, row', rows') => (inl e, row', rows')
      | (inr _, row', rows') => related_steps rest items row' rows'
      end
  end.

Definition all_relations : list relation :=
  [deliverables; therapeutic_areas; ingredient_categories; ingredients;
   demographics].

(** Outcome, project row, lookup rows and rollback mark after
    [apply_extraction]. *)
Definition effect (items : list (string * pyval)) (p : ProjectInstance)
    (row : Project) (rows : list (lookup_model * string))
    : (exn + unit) * Project * list (lookup_model * string) * bool :=
  let name := default (attr_project_name p) (assoc "project_name" items) in
  let status := default (attr_project_status p) (assoc "project_status" items) in
  match lookup_step "sponsor_name" Sponsor items rows with
  | (inl e, rows1) => (inl e, row, rows1, false)
  | (inr sp, rows1) =>
  match lookup_step "responsible_party" ResponsibleParty items rows1 with
  | (inl e, rows2) => (inl e, row, rows2, false)
  | (inr rp, rows2) =>
  match lookup_step "route_of_admin" RouteOfAdmin items rows2 with
  | (inl e, rows3) => (inl e, row, rows3, false)
  | (inr ra, rows3) =>
  match prep_column project_name_column name,
        prep_column project_status_column status with
  | Some n, Some st =>
      (related_steps all_relations items
         (mkProject n st (supplied_or sp (attr_sponsor p))
            (supplied_or rp (attr_responsible_party p))
            (supplied_or ra (attr_route_of_admin p))
            (deliverables_set row) (therapeutic_areas_set row)
            (ingredient_categories_set row) (ingredients_set row)
            (demographics_set row)) rows3, false)
  | _, _ => (inl DatabaseError, row, rows3, true)
  end end end end.

(** Outcome and connection after [apply_extraction] on the row [row] of
    key [k]. *)
Definition apply_effect (items : list (string * pyval)) (p : ProjectInstance)
    (k : string) (row : Project) (s : Store) : (exn + unit) * Conn :=
  match effect items p row (dictionary s) with
  | (res, row', rows', b) =>
      (res, mkConn (mkStore (<[k := row']> (projects s)) rows') b)
  end.

(** Outcome and connection after [reconcile]. *)
Definition reconcile_effect (update_existing : bool) (extracted_data : pyval)
    (c : Conn) : (exn + unit) * Conn :=
  match extracted_data with
  | PyDict items =>
      let project_id_val := default PyNone (assoc "project_id" items) in
      let default_name := default (PyStr "") (assoc "project_name" items) in
      if negb (truthy project_id_val) then (inr tt, c)
      else if needs_rollback c then (inl TransactionManagementError, c)
      else
        match prep_id project_id_val with
        | None => (inl DatabaseError, c)
        | Some k =>
            match projects (db c) !! k with
            | Some row =>
                if update_existing
                then apply_effect items (fetched k row) k row (db c)
                else (inr tt, c)
            | None =>
                match prep_column project_name_column default_name,
                      prep_column project_status_column
                        (from_db (status_default schema)) with
                | Some n, Some st =>
                    apply_effect items
                      (mkInstance k project_id_val default_name
                         (from_db (status_default schema)) None None None)
                      k (mkProject n st None None None [] [] [] [] []) (db c)
                | _, _ => (inl DatabaseError, c)
                end
            end
        end
  | _ => (inl AttributeError, c)
  end.

(** ** What a turn of the loop reads and extracts

    The readers and the call to the model service do not touch the
    connection: their results and what they print depend on the file alone. *)

Definition raw_text (f : File) : pyval :=
  if endswith (lower (filename f)) ".docx" then
    match parsed f with
    | Some paragraphs => PyStr (join backslash_n paragraphs)
    | None => PyNone
    end
  else if endswith (lower (filename f)) ".pdf" then
    match parsed f with
    | Some pages => PyStr (pdf_text "" pages)
    | None => PyNone
    end
  else PyNone.

Definition read_trace (f : File) : list event :=
  if endswith (lower (filename f)) ".docx" then
    Write stdout None (ProcessingDocx (filename f)) ::
    match parsed f with
    | Some _ => []
    | None => [Print (ErrorReadingDocx (filename f))]
    end
  else if endswith (lower (filename f)) ".pdf" then
    Write stdout None (ProcessingPdf (filename f)) ::
    match parsed f with
    | Some _ => []
    | None => [Print (ErrorReadingPdf (filename f))]
    end
  else [].

Definition extraction (answer : http_result) : exn + pyval :=
  match answer with
  | RequestException => inr PyNone
  | Response response_data =>
      match dict_get response_data "response" (PyStr "{}") with
      | inl e => inl e
      | inr (PyStr s) => inr (default PyNone (json_loads s))
      | inr _ => inl TypeError
      end
  end.

Definition extraction_trace (answer : http_result) : list event :=
  match answer with
  | RequestException => [Print ApiError]
  | Response response_data =>
      match dict_get response_data "response" (PyStr "{}") with
      | inr (PyStr s) =>
          match json_loads s with
          | Some _ => []
          | None => [Print (JsonDecodeError s)]
          end
      | _ => []
      end
  end.

(** The outcome and the connection after a command, without the trace. *)
Definition exec {A} (m : M A) (c : Conn) : (exn + A) * Conn := (m c).1.

(** [reconciled update_existing name d k c c']: the record [d] carries an
    identifier that names project [k], the project is new or may be updated,
    and the body of the [try] ran from [c] to [c'] without raising. *)
Definition reconciled (update_existing : bool) (name : string)
    (extracted_data : pyval) (k : string) (c c' : Conn) : Prop :=
  exec (reconcile update_existing name extracted_data) c = (inr tt, c') ∧
  ∃ project_id_val,
    dict_get extracted_data "project_id" PyNone = inr project_id_val ∧
    truthy project_id_val = true ∧
    prep_id project_id_val = Some k ∧
    (update_existing = true ∨ projects (db c) !! k = None).

(** The set of project [k] for [r] holds exactly the rows that get-or-create
    returns for the items [xs]. *)
Definition holds_rows (k : string) (r : relation) (xs : list pyval) (s : Store)
    : Prop :=
  ∀ n, n ∈ project_related k r s ↔
       ∃ x, x ∈ xs ∧ prep_name (related_model r) x = Some n.

(** The entries of a listing that yield text, and so are sent to the model
    service. *)
Definition with_text (entries : list File) : list File :=
  filter (λ f, truthy (raw_text f) = true) entries.

(** What the turn of an entry writes: an entry that yields text ends its turn
    with one closing line and writes no other; an entry that yields none
    writes what its reader writes and nothing else. *)
Definition turn_reported (f : File) (turn : list event) : Prop :=
  if truthy (raw_text f)
  then ∃ t0 e, turn = t0 ++ [e] ∧ closing e = true ∧
               Forall (λ x, closing x = false) t0
  else turn = read_trace f.

(** * Properties *)

(** ** Running the monad *)

Lemma exec_bind {A B} (m : M A) (k : A → M B) c :
  exec (bind m k) c =
  match exec m c with
  | (inl e, c1) => (inl e, c1)
  | (inr a, c1) => exec (k a) c1
  end.
Proof.
  unfold exec, bind. destruct (m c) as [[[e|a] c1] t1]; simpl; [done|].
  by destruct (k a c1) as [[r c2] t2].
Qed.

Lemma exec_ret {A} (a : A) c : exec (ret a) c = (inr a, c).
Proof. done. Qed.

Lemma exec_raise {A} e c : exec (@raise A e) c = (inl e, c).
Proof. done. Qed.

Lemma exec_lift {A} (r : exn + A) c : exec (lift r) c = (r, c).
Proof. by destruct r. Qed.

Lemma exec_write out sty m c : exec (write out sty m) c = (inr tt, c).
Proof. done. Qed.

Lemma exec_print m c : exec (print m) c = (inr tt, c).
Proof. done. Qed.

Lemma exec_modify_db f c :
  exec (modify_db f) c = (inr tt, mkConn (f (db c)) (needs_rollback c)).
Proof. done. Qed.

Lemma exec_execute call c :
  exec (execute call) c =
  (if needs_rollback c then inl TransactionManagementError else inr tt, c).
Proof. done. Qed.

Lemma exec_try_except {A} (body : M A) handler c :
  exec (try_except body handler) c =
  match exec body c with
  | (inl e, c1) => exec (handler e) c1
  | ok => ok
  end.
Proof.
  unfold exec, try_except. destruct (body c) as [[[e|a] c1] t1]; simpl; [|done].
  by destruct (handler e c1) as [[r c2] t2].
Qed.

(** ** The ORM calls on a usable transaction *)

Lemma related_set_related r names row : related r (set_related r names row) = names.
Proof. by destruct r. Qed.

Lemma related_set_related_ne r r' names row :
  r ≠ r' → related r' (set_related r names row) = related r' row.
Proof. by destruct r, r'. Qed.

Lemma set_related_set_related r names names' row :
  set_related r names (set_related r names' row) = set_related r names row.
Proof. by destruct r. Qed.

Lemma set_related_id r row : set_related r (related r row) row = row.
Proof. by destruct r, row. Qed.

Lemma exec_get_or_create t v P D :
  exec (get_or_create t v) (mkConn (mkStore P D) false) =
  match prep_name t v with
  | None => (inl DatabaseError, mkConn (mkStore P D) false)
  | Some n => (inr n, mkConn (mkStore P (dict_add t n D)) false)
  end.
Proof.
  unfold get_or_create. rewrite exec_bind, exec_execute. simpl.
  destruct (prep_name t v); [|done]. by rewrite exec_bind, exec_modify_db.
Qed.

Lemma exec_save p row P D :
  exec (save p) (mkConn (mkStore (<[pk p := row]> P) D) false) =
  match prep_column project_name_column (attr_project_name p),
        prep_column project_status_column (attr_project_status p) with
  | Some n, Some st =>
      (inr tt, mkConn (mkStore (<[pk p := write_fields n st p row]> P) D) false)
  | _, _ => (inl DatabaseError, mkConn (mkStore (<[pk p := row]> P) D) true)
  end.
Proof.
  unfold save. rewrite exec_bind, exec_execute. simpl.
  destruct (prep_column project_name_column (attr_project_name p)) as [n|];
    destruct (prep_column project_status_column (attr_project_status p)) as [st|];
    try done.
  rewrite exec_modify_db. simpl. unfold update_project. simpl.
  by rewrite alter_insert_eq.
Qed.

Lemma exec_related_clear p r row P D :
  exec (related_clear p r) (mkConn (mkStore (<[pk p := row]> P) D) false) =
  (inr tt, mkConn (mkStore (<[pk p := set_related r [] row]> P) D) false).
Proof.
  unfold related_clear. rewrite exec_bind, exec_execute. simpl.
  rewrite exec_modify_db. simpl. unfold update_project. simpl.
  by rewrite alter_insert_eq.
Qed.

Lemma exec_related_add p r n row P D :
  exec (related_add p r n) (mkConn (mkStore (<[pk p := row]> P) D) false) =
  (inr tt,
   mkConn (mkStore (<[pk p := set_related r (add_name n (related r row)) row]> P) D)
     false).
Proof.
  unfold related_add. rewrite exec_bind, exec_execute. simpl.
  rewrite exec_modify_db. simpl. unfold update_project. simpl.
  by rewrite alter_insert_eq.
Qed.

Lemma exec_link p r item_names row P D :
  exec (for_each item_names (fun item_name =>
          item <- get_or_create (related_model r) item_name ;;
          related_add p r item))
       (mkConn (mkStore (<[pk p := row]> P) D) false) =
  match link (related_model r) item_names (related r row) D with
  | (res, names, D') =>
      (res, mkConn (mkStore (<[pk p := set_related r names row]> P) D') false)
  end.
Proof.
  revert row D. induction item_names as [|x rest IH]; intros row D; simpl.
  - by rewrite exec_ret, set_related_id.
  - rewrite !exec_bind, exec_get_or_create.
    destruct (prep_name (related_model r) x) as [n|]; [|by rewrite set_related_id].
    rewrite exec_related_add, IH, related_set_related.
    destruct (link _ rest _ _) as [[res names] D'].
    by rewrite set_related_set_related.
Qed.

Lemma exec_replace_related r items p row P D :
  exec (replace_related r (PyDict items) p)
       (mkConn (mkStore (<[pk p := row]> P) D) false) =
  match related_step r items row D with
  | (res, row', D') => (res, mkConn (mkStore (<[pk p := row']> P) D') false)
  end.
Proof.
  unfold replace_related, related_step. rewrite exec_bind, exec_lift. simpl.
  destruct (truthy _); [|by rewrite exec_ret].
  rewrite exec_bind, exec_related_clear, exec_bind, exec_lift.
  destruct (py_iter _) as [e|item_names]; [done|].
  rewrite exec_link, related_set_related.
  destruct (link _ _ _ _) as [[res names] D'].
  by rewrite set_related_set_related.
Qed.

Lemma exec_assign_lookup key t setter items p P D :
  exec (assign_lookup key t setter (PyDict items) p) (mkConn (mkStore P D) false) =
  match lookup_step key t items D with
  | (inl e, D') => (inl e, mkConn (mkStore P D') false)
  | (inr o, D') =>
      (inr (match o with Some n => setter n p | None => p end),
       mkConn (mkStore P D') false)
  end.
Proof.
  unfold assign_lookup, lookup_step. rewrite exec_bind, exec_lift. simpl.
  destruct (truthy _); [|by rewrite exec_ret].
  rewrite exec_bind, exec_get_or_create.
  by destruct (prep_name t _).
Qed.

Lemma exec_related_steps items p row P D :
  exec (replace_related deliverables (PyDict items) p ;;
        replace_related therapeutic_areas (PyDict items) p ;;
        replace_related ingredient_categories (PyDict items) p ;;
        replace_related ingredients (PyDict items) p ;;
        replace_related demographics (PyDict items) p ;;
        write stdout (Some SUCCESS) (SuccessfullyProcessed (attr_project_id p)))
       (mkConn (mkStore (<[pk p := row]> P) D) false) =
  match related_steps all_relations items row D with
  | (res, row', D') => (res, mkConn (mkStore (<[pk p := row']> P) D') false)
  end.
Proof.
  unfold all_relations. simpl.
  repeat (rewrite exec_bind, exec_replace_related;
          destruct (related_step _ items _ _) as [[[e|[]] ?] ?]; [done|]).
  by rewrite exec_write.
Qed.

Lemma exec_apply_extraction items p row P D :
  exec (apply_extraction (PyDict items) p)
       (mkConn (mkStore (<[pk p := row]> P) D) false) =
  match effect items p row D with
  | (res, row', D', b) => (res, mkConn (mkStore (<[pk p := row']> P) D') b)
  end.
Proof.
  unfold apply_extraction, effect.
  rewrite exec_bind, exec_lift. cbn [dict_get].
  rewrite exec_bind, exec_lift. cbn [dict_get].
  rewrite exec_bind, exec_assign_lookup.
  destruct (lookup_step "sponsor_name" _ _ _) as [[e|sp] D1]; [done|].
  rewrite exec_bind, exec_assign_lookup.
  destruct (lookup_step "responsible_party" _ _ _) as [[e|rp] D2]; [done|].
  rewrite exec_bind, exec_assign_lookup.
  destruct (lookup_step "route_of_admin" _ _ _) as [[e|ra] D3]; [done|].
  set (name := default (attr_project_name p) _).
  set (status := default (attr_project_status p) _).
  set (q := match ra with Some n => _ | None => _ end).
  assert (Hq : pk q = pk p ∧ attr_project_id q = attr_project_id p ∧
               attr_project_name q = name ∧ attr_project_status q = status ∧
               attr_sponsor q = supplied_or sp (attr_sponsor p) ∧
               attr_responsible_party q = supplied_or rp (attr_responsible_party p) ∧
               attr_route_of_admin q = supplied_or ra (attr_route_of_admin p)).
  { subst q. by destruct sp, rp, ra. }
  destruct Hq as (Hpk & Hid & Hn & Hs & Hsp & Hrp & Hra).
  clearbody q. rewrite exec_bind, <- Hpk, exec_save, Hn, Hs.
  destruct (prep_column project_name_column name) as [n|]; [|done].
  destruct (prep_column project_status_column status) as [st|]; [|done].
  rewrite exec_related_steps. unfold write_fields. rewrite Hsp, Hrp, Hra.
  by destruct (related_steps _ _ _ _) as [[res row'] D'].
Qed.

Lemma exec_reconcile update_existing name extracted_data c :
  exec (reconcile update_existing name extracted_data) c =
  reconcile_effect update_existing extracted_data c.
Proof.
  unfold reconcile, reconcile_effect.
  destruct extracted_data as [| | | | |?|items];
    try by rewrite exec_bind, exec_lift.
  rewrite exec_bind, exec_lift. cbn [dict_get].
  destruct (negb (truthy _)); [done|].
  rewrite exec_bind, exec_lift. cbn [dict_get].
  rewrite exec_bind. unfold Project_get_or_create.
  rewrite exec_bind, exec_execute.
  destruct c as [[P D] [|]]; [done|]. cbn [needs_rollback db projects].
  destruct (prep_id _) as [k|]; [|done].
  rewrite exec_bind. cbn [exec get_db fst db projects].
  destruct (P !! k) as [row|] eqn:Hk.
  - rewrite exec_ret. cbn [fst snd]. destruct update_existing.
    + rewrite exec_bind, exec_write.
      rewrite <- (insert_id P k row Hk) at 1.
      change k with (pk (fetched k row)) at 1.
      rewrite exec_apply_extraction. unfold apply_effect. simpl.
      by destruct (effect _ _ _ _) as [[[res row'] D'] b].
    + by rewrite exec_write.
  - destruct (prep_column project_name_column _) as [n|]; [|done].
    destruct (prep_column project_status_column _) as [st|]; [|done].
    rewrite exec_bind. cbn [exec put_db fst insert_project projects dictionary db
                             needs_rollback].
    rewrite exec_ret. cbn [fst snd].
    rewrite exec_bind, exec_write.
    set (p := mkInstance k _ _ _ _ _ _).
    change k with (pk p) at 1. unfold insert_project. cbn [projects dictionary].
    rewrite exec_apply_extraction. unfold apply_effect. simpl.
    by destruct (effect _ _ _ _) as [[[res row'] D'] b].
Qed.

(** ** Lookup rows and related names *)

Lemma elem_of_dict_add t n D x : x ∈ dict_add t n D ↔ x ∈ D ∨ x = (t, n).
Proof.
  unfold dict_add. destruct (decide ((t, n) ∈ D)) as [Hin|Hin].
  - split; [by left|]. by intros [?| ->].
  - by rewrite elem_of_app, list_elem_of_singleton.
Qed.

Lemma dict_add_id t n D : (t, n) ∈ D → dict_add t n D = D.
Proof. intros H. unfold dict_add. by rewrite decide_True. Qed.

Lemma NoDup_dict_add t n D : NoDup D → NoDup (dict_add t n D).
Proof.
  intros H. unfold dict_add. destruct (decide ((t, n) ∈ D)); [done|].
  apply NoDup_app. split_and!; [done| |apply NoDup_singleton].
  intros x Hx Hx'. apply list_elem_of_singleton in Hx'. by subst.
Qed.

Lemma elem_of_add_name n L x : x ∈ add_name n L ↔ x ∈ L ∨ x = n.
Proof.
  unfold add_name. destruct (decide (n ∈ L)) as [Hin|Hin].
  - split; [by left|]. by intros [?| ->].
  - by rewrite elem_of_app, list_elem_of_singleton.
Qed.

Lemma NoDup_add_name n L : NoDup L → NoDup (add_name n L).
Proof.
  intros H. unfold add_name. destruct (decide (n ∈ L)); [done|].
  apply NoDup_app. split_and!; [done| |apply NoDup_singleton].
  intros x Hx Hx'. apply list_elem_of_singleton in Hx'. by subst.
Qed.

Lemma link_mono t item_names names D res L D' :
  link t item_names names D = (res, L, D') → ∀ x, x ∈ D → x ∈ D'.
Proof.
  revert names D. induction item_names as [|v rest IH]; intros names D H x Hx;
    simpl in H.
  - by simplify_eq.
  - destruct (prep_name t v) as [n|]; [|by simplify_eq].
    eapply IH; [done|]. apply elem_of_dict_add. by left.
Qed.

Lemma link_absorb t item_names names D res L D' D2 :
  link t item_names names D = (res, L, D') →
  (∀ x, x ∈ D' → x ∈ D2) →
  link t item_names names D2 = (res, L, D2).
Proof.
  revert names D. induction item_names as [|v rest IH]; intros names D H Hsub;
    simpl in *.
  - by simplify_eq.
  - destruct (prep_name t v) as [n|]; [|by simplify_eq].
    rewrite dict_add_id; [by eapply IH|].
    apply Hsub. eapply link_mono; [done|]. apply elem_of_dict_add. by right.
Qed.

Lemma link_names t item_names names D L D' :
  link t item_names names D = (inr tt, L, D') →
  ∀ n, n ∈ L ↔ n ∈ names ∨ ∃ v, v ∈ item_names ∧ prep_name t v = Some n.
Proof.
  revert names D. induction item_names as [|v rest IH]; intros names D H n;
    simpl in H.
  - simplify_eq. split; [by left|]. intros [?|(v & Hv & _)]; [done|].
    by apply elem_of_nil in Hv.
  - destruct (prep_name t v) as [m|] eqn:Hm; [|by simplify_eq].
    rewrite (IH _ _ H n), elem_of_add_name. split.
    + intros [[?| ->]|(w & Hw & Hn)]; [by left| |].
      * right. exists v. split; [apply elem_of_cons; by left|done].
      * right. exists w. split; [apply elem_of_cons; by right|done].
    + intros [?|(w & Hw & Hn)]; [by left; left|].
      apply elem_of_cons in Hw as [-> |Hw].
      * left. right. congruence.
      * right. by exists w.
Qed.

Lemma link_stored t item_names names D res L D' :
  link t item_names names D = (res, L, D') →
  ∀ n, n ∈ L → n ∈ names ∨ (t, n) ∈ D'.
Proof.
  revert names D. induction item_names as [|v rest IH]; intros names D H n Hn;
    simpl in H.
  - simplify_eq. by left.
  - destruct (prep_name t v) as [m|] eqn:Hm; [|simplify_eq; by left].
    destruct (IH _ _ H n Hn) as [Hin|?]; [|by right].
    apply elem_of_add_name in Hin as [?| ->]; [by left|].
    right. eapply link_mono; [done|]. apply elem_of_dict_add. by right.
Qed.

Lemma link_NoDup t item_names names D res L D' :
  link t item_names names D = (res, L, D') →
  (NoDup names → NoDup L) ∧ (NoDup D → NoDup D').
Proof.
  revert names D. induction item_names as [|v rest IH]; intros names D H;
    simpl in H.
  - by simplify_eq.
  - destruct (prep_name t v) as [m|]; [|by simplify_eq].
    destruct (IH _ _ H) as [H1 H2].
    split; intros; [apply H1, NoDup_add_name|apply H2, NoDup_dict_add]; done.
Qed.

(** Every item before the first the store refuses is linked; an item is
    refused exactly when the outcome is an exception. *)
Lemma link_outcome t item_names names D res L D' :
  link t item_names names D = (res, L, D') →
  (res = inr tt ↔ ∀ v, v ∈ item_names → is_Some (prep_name t v)).
Proof.
  revert names D. induction item_names as [|v rest IH]; intros names D H;
    simpl in H.
  - simplify_eq. split; [|done]. intros _ v Hv. by apply elem_of_nil in Hv.
  - destruct (prep_name t v) as [m|] eqn:Hm.
    + rewrite (IH _ _ H). split.
      * intros Hall w Hw. apply elem_of_cons in Hw as [-> |?]; [by rewrite Hm|auto].
      * intros Hall w Hw. apply Hall, elem_of_cons. by right.
    + simplify_eq. split; [done|]. intros Hall.
      destruct (Hall v) as [? ?]; [apply elem_of_cons; by left|congruence].
Qed.

(** ** One many-to-many attribute *)

Lemma same_fields_refl row : same_fields row row.
Proof. by repeat split. Qed.

Lemma same_fields_trans row1 row2 row3 :
  same_fields row1 row2 → same_fields row2 row3 → same_fields row1 row3.
Proof.
  intros (?&?&?&?&?) (?&?&?&?&?). repeat split; congruence.
Qed.

Lemma same_fields_set_related r names row : same_fields row (set_related r names row).
Proof. by destruct r. Qed.

Lemma related_step_mono r items row D res row' D' :
  related_step r items row D = (res, row', D') → ∀ x, x ∈ D → x ∈ D'.
Proof.
  unfold related_step. intros H.
  destruct (truthy _); [|by simplify_eq].
  destruct (py_iter _) as [e|item_names]; [by simplify_eq|].
  destruct (link _ _ _ _) as [[res1 names] D1] eqn:Hl. simplify_eq.
  by eapply link_mono.
Qed.

Lemma related_step_NoDup r items row D res row' D' :
  related_step r items row D = (res, row', D') → NoDup D → NoDup D'.
Proof.
  unfold related_step. intros H.
  destruct (truthy _); [|by simplify_eq].
  destruct (py_iter _) as [e|item_names]; [by simplify_eq|].
  destruct (link _ _ _ _) as [[res1 names] D1] eqn:Hl. simplify_eq.
  by apply (link_NoDup _ _ _ _ _ _ _ Hl).
Qed.

Lemma related_step_frame r items row D res row' D' :
  related_step r items row D = (res, row', D') →
  same_fields row row' ∧ ∀ r', r ≠ r' → related r' row' = related r' row.
Proof.
  unfold related_step. intros H.
  destruct (truthy _); [|simplify_eq; split; [apply same_fields_refl|done]].
  destruct (py_iter _) as [e|item_names].
  - simplify_eq. split; [apply same_fields_set_related|].
    intros. by apply related_set_related_ne.
  - destruct (link _ _ _ _) as [[res1 names] D1]. simplify_eq.
    split; [apply same_fields_set_related|].
    intros. by apply related_set_related_ne.
Qed.

(** Running the step again, on any row that holds the same related names and
    any lookup rows that include the ones it made, changes nothing. *)
Lemma related_step_stable r items row D res row' D' row2 D2 :
  related_step r items row D = (res, row', D') →
  (∀ x, x ∈ D' → x ∈ D2) →
  related r row2 = related r row' →
  related_step r items row2 D2 = (res, row2, D2).
Proof.
  unfold related_step. intros H Hsub Hrel.
  destruct (truthy _); [|by simplify_eq].
  destruct (py_iter _) as [e|item_names].
  - simplify_eq. rewrite related_set_related in Hrel.
    by rewrite <- Hrel, set_related_id.
  - destruct (link _ _ _ _) as [[res1 names] D1] eqn:Hl. simplify_eq.
    rewrite related_set_related in Hrel.
    rewrite (link_absorb _ _ _ _ _ _ _ _ Hl Hsub).
    by rewrite <- Hrel, set_related_id.
Qed.

Lemma related_steps_mono rs items row D res row' D' :
  related_steps rs items row D = (res, row', D') → ∀ x, x ∈ D → x ∈ D'.
Proof.
  revert row D. induction rs as [|r rest IH]; intros row D H x Hx; simpl in H.
  - by simplify_eq.
  - destruct (related_step r items row D) as [[[e|[]] row1] D1] eqn:Hr.
    + simplify_eq. by eapply related_step_mono.
    + eapply IH; [done|]. by eapply related_step_mono.
Qed.

Lemma related_steps_NoDup rs items row D res row' D' :
  related_steps rs items row D = (res, row', D') → NoDup D → NoDup D'.
Proof.
  revert row D. induction rs as [|r rest IH]; intros row D H HD; simpl in H.
  - by simplify_eq.
  - destruct (related_step r items row D) as [[[e|[]] row1] D1] eqn:Hr.
    + simplify_eq. by eapply related_step_NoDup.
    + eapply IH; [done|]. by eapply related_step_NoDup.
Qed.

Lemma related_steps_frame rs items row D res row' D' :
  related_steps rs items row D = (res, row', D') →
  same_fields row row' ∧ ∀ r, r ∉ rs → related r row' = related r row.
Proof.
  revert row D. induction rs as [|r rest IH]; intros row D H; simpl in H.
  - simplify_eq. split; [apply same_fields_refl|done].
  - destruct (related_step r items row D) as [[[e|[]] row1] D1] eqn:Hr.
    + simplify_eq. destruct (related_step_frame _ _ _ _ _ _ _ Hr) as [Hf Ho].
      split; [done|]. intros r' Hr'. apply Ho. intros ->. apply Hr'.
      apply elem_of_cons. by left.
    + destruct (related_step_frame _ _ _ _ _ _ _ Hr) as [Hf Ho].
      destruct (IH _ _ H) as [Hf' Ho'].
      split; [by eapply same_fields_trans|].
      intros r' Hr'. rewrite Ho'.
      * apply Ho. intros ->. apply Hr'. apply elem_of_cons. by left.
      * intros Hin. apply Hr'. apply elem_of_cons. by right.
Qed.

Lemma related_steps_stable rs items row D res row' D' row2 D2 :
  NoDup rs →
  related_steps rs items row D = (res, row', D') →
  (∀ x, x ∈ D' → x ∈ D2) →
  (∀ r, r ∈ rs → related r row2 = related r row') →
  related_steps rs items row2 D2 = (res, row2, D2).
Proof.
  revert row D. induction rs as [|r rest IH]; intros row D Hnd H Hsub Hrel;
    simpl in *.
  - by simplify_eq.
  - apply NoDup_cons in Hnd as [Hr Hnd].
    destruct (related_step r items row D) as [[[e|[]] row1] D1] eqn:Hs.
    + simplify_eq.
      rewrite (related_step_stable _ _ _ _ _ _ _ row2 D2 Hs); [done|done|].
      apply Hrel, elem_of_cons. by left.
    + destruct (related_steps_frame _ _ _ _ _ _ _ H) as [_ Ho].
      rewrite (related_step_stable _ _ _ _ _ _ _ row2 D2 Hs).
      * eapply IH; [done|done|done|]. intros r' Hr'. apply Hrel, elem_of_cons.
        by right.
      * intros x Hx. apply Hsub. by eapply related_steps_mono.
      * rewrite <- (Ho r Hr). apply Hrel, elem_of_cons. by left.
Qed.

Lemma NoDup_all_relations : NoDup all_relations.
Proof. by apply (bool_decide_unpack _). Qed.


(** ** A single-valued reference *)

Lemma lookup_step_mono key t items D res D' :
  lookup_step key t items D = (res, D') → ∀ x, x ∈ D → x ∈ D'.
Proof.
  unfold lookup_step. intros H x Hx.
  destruct (truthy _); [|by simplify_eq].
  destruct (prep_name t _); simplify_eq; [|done].
  apply elem_of_dict_add. by left.
Qed.

Lemma lookup_step_NoDup key t items D res D' :
  lookup_step key t items D = (res, D') → NoDup D → NoDup D'.
Proof.
  unfold lookup_step. intros H HD.
  destruct (truthy _); [|by simplify_eq].
  destruct (prep_name t _); simplify_eq; [|done].
  by apply NoDup_dict_add.
Qed.

Lemma lookup_step_absorb key t items D res D' D2 :
  lookup_step key t items D = (res, D') →
  (∀ x, x ∈ D' → x ∈ D2) →
  lookup_step key t items D2 = (res, D2).
Proof.
  unfold lookup_step. intros H Hsub.
  destruct (truthy _); [|by simplify_eq].
  destruct (prep_name t _) as [n|]; simplify_eq; [|done].
  rewrite dict_add_id; [done|]. apply Hsub, elem_of_dict_add. by right.
Qed.

(** ** Applying the same extraction again *)

Lemma prep_column_from_db col v x :
  prep_column col v = Some x → prep_column col (from_db x) = Some x.
Proof.
  unfold prep_column. destruct v; try (destruct (column_text schema col _);
    simpl; intros; by simplify_eq).
  destruct (nullable schema col) eqn:Hn; intros; by simplify_eq.
Qed.

Lemma supplied_or_idem o attr : supplied_or o (supplied_or o attr) = supplied_or o attr.
Proof. by destruct o. Qed.

Lemma effect_idem items p row D res row' D' k :
  effect items p row D = (res, row', D', false) →
  effect items (fetched k row') row' D' = (res, row', D', false).
Proof.
  unfold effect. intros H.
  destruct (lookup_step "sponsor_name" Sponsor items D) as [[e|sp] D1] eqn:H1.
  { simplify_eq. by rewrite (lookup_step_absorb _ _ _ _ _ _ D' H1). }
  destruct (lookup_step "responsible_party" ResponsibleParty items D1)
    as [[e|rp] D2] eqn:H2.
  { simplify_eq.
    rewrite (lookup_step_absorb _ _ _ _ _ _ D' H1);
      [|by eapply lookup_step_mono].
    by rewrite (lookup_step_absorb _ _ _ _ _ _ D' H2). }
  destruct (lookup_step "route_of_admin" RouteOfAdmin items D2)
    as [[e|ra] D3] eqn:H3.
  { simplify_eq.
    rewrite (lookup_step_absorb _ _ _ _ _ _ D' H1);
      [|intros; eapply lookup_step_mono; [done|]; by eapply lookup_step_mono].
    rewrite (lookup_step_absorb _ _ _ _ _ _ D' H2);
      [|by eapply lookup_step_mono].
    by rewrite (lookup_step_absorb _ _ _ _ _ _ D' H3). }
  destruct (prep_column project_name_column _) as [n|] eqn:Hn; [|by simplify_eq].
  destruct (prep_column project_status_column _) as [st|] eqn:Hst;
    [|by simplify_eq].
  destruct (related_steps all_relations items _ D3) as [[res1 row1] D4] eqn:Hs.
  simplify_eq.
  pose proof (related_steps_mono _ _ _ _ _ _ _ Hs) as Hm4.
  pose proof (lookup_step_mono _ _ _ _ _ _ H3) as Hm3.
  pose proof (lookup_step_mono _ _ _ _ _ _ H2) as Hm2.
  rewrite (lookup_step_absorb _ _ _ _ _ _ D' H1) by auto.
  rewrite (lookup_step_absorb _ _ _ _ _ _ D' H2) by auto.
  rewrite (lookup_step_absorb _ _ _ _ _ _ D' H3) by auto.
  destruct (related_steps_frame _ _ _ _ _ _ _ Hs) as [(Fn & Fs & Fsp & Frp & Fra) _].
  simpl in Fn, Fs, Fsp, Frp, Fra. cbn [fetched attr_project_name
    attr_project_status attr_sponsor attr_responsible_party attr_route_of_admin].
  rewrite Fn, Fs, Fsp, Frp, Fra, !supplied_or_idem.
  assert (prep_column project_name_column
            (default (from_db n) (assoc "project_name" items)) = Some n) as ->.
  { destruct (assoc "project_name" items); [done|]. by eapply prep_column_from_db. }
  assert (prep_column project_status_column
            (default (from_db st) (assoc "project_status" items)) = Some st) as ->.
  { destruct (assoc "project_status" items); [done|]. by eapply prep_column_from_db. }
  f_equal.
  set (row2 := mkProject _ _ _ _ _ _ _ _ _ _).
  assert (row2 = row') as ->.
  { subst row2. destruct row'; simpl in *. by subst. }
  eapply related_steps_stable; [apply NoDup_all_relations|done|done|done].
Qed.

(** Reconciling an extraction a second time, with updates enabled, leaves the
    connection as the first time left it: the same store and the same
    rollback mark. *)
Lemma reconcile_effect_idem extracted_data c :
  (reconcile_effect true extracted_data
     (reconcile_effect true extracted_data c).2).2 =
  (reconcile_effect true extracted_data c).2.
Proof.
  assert (Hagain : ∀ items p k row P D,
    let c1 := (apply_effect items p k row (mkStore P D)).2 in
    needs_rollback c1 = true ∨
    ∃ row', projects (db c1) !! k = Some row' ∧
      apply_effect items (fetched k row') k row' (db c1) =
      apply_effect items p k row (mkStore P D)).
  { intros items p k row P D. unfold apply_effect. simpl.
    destruct (effect items p row D) as [[[res row'] D'] [|]] eqn:He; simpl;
      [by left|right].
    exists row'. split; [apply lookup_insert_eq|].
    rewrite (effect_idem _ _ _ _ _ _ _ k He). by rewrite insert_insert_eq. }
  unfold reconcile_effect at 2 3.
  destruct extracted_data as [| | | | |?|items]; try done.
  set (pid := default PyNone (assoc "project_id" items)).
  destruct (negb (truthy pid)) eqn:Hpid.
  { unfold reconcile_effect. fold pid. by rewrite Hpid. }
  destruct c as [[P D] [|]]; cbn [needs_rollback db projects dictionary].
  { unfold reconcile_effect. fold pid. by rewrite Hpid. }
  destruct (prep_id pid) as [k|] eqn:Hk.
  2:{ unfold reconcile_effect. fold pid. cbn [snd needs_rollback].
      by rewrite Hpid, Hk. }
  destruct (P !! k) as [row|] eqn:Hrow.
  - destruct (Hagain items (fetched k row) k row P D) as [Hnr|(row' & Hl & Heq)].
    + unfold reconcile_effect. fold pid. by rewrite Hpid, Hnr.
    + unfold reconcile_effect. fold pid. rewrite Hpid, Hk, Hl.
      destruct (needs_rollback _); [done|]. by rewrite Heq.
  - set (dn := default (PyStr "") (assoc "project_name" items)).
    destruct (prep_column project_name_column dn) as [n|] eqn:Hn.
    2:{ unfold reconcile_effect. fold pid dn.
        cbn [snd needs_rollback db projects].
        by rewrite Hpid, Hk, Hrow, Hn. }
    destruct (prep_column project_status_column _) as [st|] eqn:Hst.
    2:{ unfold reconcile_effect. fold pid dn.
        cbn [snd needs_rollback db projects].
        by rewrite Hpid, Hk, Hrow, Hn, Hst. }
    match goal with
    | |- context [apply_effect items ?p k ?r (mkStore P D)] =>
        destruct (Hagain items p k r P D) as [Hnr|(row' & Hl & Heq)]
    end.
    + unfold reconcile_effect. fold pid. by rewrite Hpid, Hnr.
    + unfold reconcile_effect. fold pid. rewrite Hpid, Hk, Hl.
      destruct (needs_rollback _); [done|]. by rewrite Heq.
Qed.

(** ** One turn of the loop *)

Lemma read_text_run f c : read_text f c = (inr (raw_text f), c, read_trace f).
Proof.
  unfold read_text, raw_text, read_trace, extract_text_from_docx,
    extract_text_from_pdf.
  destruct (endswith (lower (filename f)) ".docx").
  { by destruct (parsed f). }
  destruct (endswith (lower (filename f)) ".pdf"); [|done].
  by destruct (parsed f).
Qed.

Lemma call_phi3_for_extraction_run answer c :
  call_phi3_for_extraction answer c =
  (extraction answer, c, extraction_trace answer).
Proof.
  unfold call_phi3_for_extraction, extraction, extraction_trace.
  destruct answer as [|response_data]; [done|].
  unfold bind. destruct (dict_get response_data "response" (PyStr "{}"))
    as [e|[| | | |s| |]]; try done.
  simpl. by destruct (json_loads s).
Qed.

(** A turn of the loop, spelled out: its outcome, the connection it leaves
    and everything it emits. *)
Lemma process_file_run update_existing f c :
  process_file update_existing f c =
  if truthy (raw_text f) then
    match extraction (reply f) with
    | inl e =>
        (inl e, c,
         read_trace f ++ Write stdout None Extracting ::
         extraction_trace (reply f))
    | inr extracted_data =>
        if truthy extracted_data then
          match reconcile update_existing (filename f) extracted_data c with
          | (inr _, c', t) =>
              (inr tt, c',
               read_trace f ++ Write stdout None Extracting ::
               extraction_trace (reply f) ++ t)
          | (inl e, c', t) =>
              (inr tt, c',
               read_trace f ++ Write stdout None Extracting ::
               extraction_trace (reply f) ++ t ++
               [Write stderr (Some ERROR) (DatabaseErrorFor (filename f) e)])
          end
        else
          (inr tt, c,
           read_trace f ++ Write stdout None Extracting ::
           extraction_trace (reply f) ++
           [Write stderr (Some ERROR) (FailedToExtract (filename f))])
    end
  else (inr tt, c, read_trace f).
Proof.
  unfold process_file, bind at 1. rewrite read_text_run.
  destruct (truthy (raw_text f)); simpl; [|by rewrite app_nil_r].
  unfold bind at 1. simpl. unfold bind at 1.
  rewrite call_phi3_for_extraction_run.
  destruct (extraction (reply f)) as [e|extracted_data]; [done|].
  destruct (truthy extracted_data); simpl.
  - unfold try_except.
    by destruct (reconcile _ _ _ c) as [[[e|[]] c'] t].
  - done.
Qed.

Lemma exec_process_file update_existing f c :
  exec (process_file update_existing f) c =
  if truthy (raw_text f) then
    match extraction (reply f) with
    | inl e => (inl e, c)
    | inr extracted_data =>
        (inr tt,
         if truthy extracted_data
         then (reconcile_effect update_existing extracted_data c).2
         else c)
    end
  else (inr tt, c).
Proof.
  unfold exec at 1. rewrite process_file_run.
  destruct (truthy (raw_text f)); [|done].
  destruct (extraction (reply f)) as [e|extracted_data]; [done|].
  destruct (truthy extracted_data); [|done].
  rewrite <- exec_reconcile with (name := filename f). unfold exec.
  by destruct (reconcile _ _ _ c) as [[[e|[]] c'] t].
Qed.

Lemma orm_calls_app t1 t2 : orm_calls (t1 ++ t2) = orm_calls t1 ++ orm_calls t2.
Proof. apply omap_app. Qed.

Lemma orm_calls_read_trace f : orm_calls (read_trace f) = [].
Proof.
  unfold read_trace.
  destruct (endswith _ ".docx"); [by destruct (parsed f)|].
  destruct (endswith _ ".pdf"); [by destruct (parsed f)|done].
Qed.

Lemma orm_calls_extraction_trace answer : orm_calls (extraction_trace answer) = [].
Proof.
  destruct answer as [|response_data]; [done|]. simpl.
  destruct (dict_get _ _ _) as [e|[| | | |s| |]]; try done.
  by destruct (json_loads s).
Qed.

(** ** What a successful reconciliation leaves behind *)




Lemma effect_ok items p row D row' D' b :
  effect items p row D = (inr tt, row', D', b) →
  b = false ∧
  ∃ sp rp ra n st D1 D2 D3,
    lookup_step "sponsor_name" Sponsor items D = (inr sp, D1) ∧
    lookup_step "responsible_party" ResponsibleParty items D1 = (inr rp, D2) ∧
    lookup_step "route_of_admin" RouteOfAdmin items D2 = (inr ra, D3) ∧
    prep_column project_name_column
      (default (attr_project_name p) (assoc "project_name" items)) = Some n ∧
    prep_column project_status_column
      (default (attr_project_status p) (assoc "project_status" items)) = Some st ∧
    related_steps all_relations items
      (mkProject n st (supplied_or sp (attr_sponsor p))
         (supplied_or rp (attr_responsible_party p))
         (supplied_or ra (attr_route_of_admin p))
         (deliverables_set row) (therapeutic_areas_set row)
         (ingredient_categories_set row) (ingredients_set row)
         (demographics_set row)) D3 = (inr tt, row', D').
Proof.
  unfold effect. intros H.
  destruct (lookup_step "sponsor_name" _ _ _) as [[e|sp] D1] eqn:H1;
    [by simplify_eq|].
  destruct (lookup_step "responsible_party" _ _ _) as [[e|rp] D2] eqn:H2;
    [by simplify_eq|].
  destruct (lookup_step "route_of_admin" _ _ _) as [[e|ra] D3] eqn:H3;
    [by simplify_eq|].
  destruct (prep_column project_name_column _) as [n|] eqn:Hn; [|by simplify_eq].
  destruct (prep_column project_status_column _) as [st|] eqn:Hst;
    [|by simplify_eq].
  destruct (related_steps _ _ _ _) as [[res1 row1] D4] eqn:Hs. simplify_eq.
  split; [done|]. by exists sp, rp, ra, n, st, D1, D2, D3.
Qed.

Lemma effect_mono items p row D res row' D' b :
  effect items p row D = (res, row', D', b) → ∀ x, x ∈ D → x ∈ D'.
Proof.
  unfold effect. intros H x Hx.
  destruct (lookup_step "sponsor_name" _ _ _) as [[e|sp] D1] eqn:H1.
  { simplify_eq. by eapply lookup_step_mono. }
  apply (lookup_step_mono _ _ _ _ _ _ H1) in Hx.
  destruct (lookup_step "responsible_party" _ _ _) as [[e|rp] D2] eqn:H2.
  { simplify_eq. by eapply lookup_step_mono. }
  apply (lookup_step_mono _ _ _ _ _ _ H2) in Hx.
  destruct (lookup_step "route_of_admin" _ _ _) as [[e|ra] D3] eqn:H3.
  { simplify_eq. by eapply lookup_step_mono. }
  apply (lookup_step_mono _ _ _ _ _ _ H3) in Hx.
  destruct (prep_column project_name_column _) as [n|]; [|by simplify_eq].
  destruct (prep_column project_status_column _) as [st|]; [|by simplify_eq].
  destruct (related_steps _ _ _ _) as [[res1 row1] D4] eqn:Hs. simplify_eq.
  by eapply related_steps_mono.
Qed.

Lemma effect_NoDup items p row D res row' D' b :
  effect items p row D = (res, row', D', b) → NoDup D → NoDup D'.
Proof.
  unfold effect. intros H Hx.
  destruct (lookup_step "sponsor_name" _ _ _) as [[e|sp] D1] eqn:H1.
  { simplify_eq. by eapply lookup_step_NoDup. }
  apply (lookup_step_NoDup _ _ _ _ _ _ H1) in Hx.
  destruct (lookup_step "responsible_party" _ _ _) as [[e|rp] D2] eqn:H2.
  { simplify_eq. by eapply lookup_step_NoDup. }
  apply (lookup_step_NoDup _ _ _ _ _ _ H2) in Hx.
  destruct (lookup_step "route_of_admin" _ _ _) as [[e|ra] D3] eqn:H3.
  { simplify_eq. by eapply lookup_step_NoDup. }
  apply (lookup_step_NoDup _ _ _ _ _ _ H3) in Hx.
  destruct (prep_column project_name_column _) as [n|]; [|by simplify_eq].
  destruct (prep_column project_status_column _) as [st|]; [|by simplify_eq].
  destruct (related_steps _ _ _ _) as [[res1 row1] D4] eqn:Hs. simplify_eq.
  by eapply related_steps_NoDup.
Qed.

(** A reconciliation that returns without an exception, for a record with an
    identifier and a project that is new or may be updated, has applied the
    extraction to the row of that project. *)
Lemma reconcile_success update_existing name extracted_data c c' pid k :
  exec (reconcile update_existing name extracted_data) c = (inr tt, c') →
  dict_get extracted_data "project_id" PyNone = inr pid →
  truthy pid = true →
  prep_id pid = Some k →
  update_existing = true ∨ projects (db c) !! k = None →
  ∃ items p row0 row' D',
    extracted_data = PyDict items ∧
    needs_rollback c = false ∧
    effect items p row0 (dictionary (db c)) = (inr tt, row', D', false) ∧
    c' = mkConn (mkStore (<[k := row']> (projects (db c))) D') false ∧
    (∀ r, related r row0 = project_related k r (db c)) ∧
    (projects (db c) !! k = None → sponsor row0 = None ∧ attr_sponsor p = None) ∧
    (∀ row, projects (db c) !! k = Some row →
            row0 = row ∧ p = fetched k row).
Proof.
  rewrite exec_reconcile. unfold reconcile_effect.
  destruct extracted_data as [| | | | |?|items]; try done.
  cbn [dict_get]. intros H Hpid Ht Hk Hupd. simplify_eq. rewrite Ht in H.
  cbn [negb] in H. destruct (needs_rollback c) eqn:Hnr; [done|].
  rewrite Hk in H. unfold project_related.
  destruct (projects (db c) !! k) as [row|] eqn:Hrow.
  - destruct Hupd as [->|?]; [|done]. unfold apply_effect in H.
    destruct (effect _ _ _ _) as [[[res row'] D'] b] eqn:He. simplify_eq.
    destruct (effect_ok _ _ _ _ _ _ _ He) as [-> _].
    exists items, (fetched k row), row, row', D'. split_and!; try done.
    intros ? ?. by simplify_eq.
  - destruct (prep_column project_name_column _) as [n|]; [|done].
    destruct (prep_column project_status_column _) as [st|]; [|done].
    unfold apply_effect in H.
    destruct (effect _ _ _ _) as [[[res row'] D'] b] eqn:He. simplify_eq.
    destruct (effect_ok _ _ _ _ _ _ _ He) as [-> _].
    eexists items, _, _, row', D'. split_and!; try done. by intros [].
Qed.

Lemma count_reported_app o t1 t2 :
  count_reported o (t1 ++ t2) = count_reported o t1 + count_reported o t2.
Proof. unfold count_reported. by rewrite filter_app, length_app. Qed.

Lemma count_reported_cons_None o e t :
  reported e = None → count_reported o (e :: t) = count_reported o t.
Proof.
  intros H. unfold count_reported. rewrite filter_cons_False; [done|].
  by rewrite H.
Qed.

Lemma count_reported_read_trace o f : count_reported o (read_trace f) = 0.
Proof.
  unfold read_trace.
  destruct (endswith _ ".docx"); [by destruct (parsed f)|].
  destruct (endswith _ ".pdf"); [by destruct (parsed f)|done].
Qed.

Lemma count_reported_extraction_trace o answer :
  count_reported o (extraction_trace answer) = 0.
Proof.
  destruct answer as [|response_data]; [done|]. simpl.
  destruct (dict_get _ _ _) as [e|[| | | |s| |]]; try done.
  by destruct (json_loads s).
Qed.

(** ** Records that are skipped *)

Lemma reconcile_no_identifier update_existing name items c :
  truthy (default PyNone (assoc "project_id" items)) = false →
  reconcile update_existing name (PyDict items) c =
  (inr tt, c, [Write stderr (Some WARNING) (SkippingNoProjectId name)]).
Proof. intros H. unfold reconcile, bind. simpl. by rewrite H. Qed.

Lemma reconcile_existing_no_update name items c k row :
  truthy (default PyNone (assoc "project_id" items)) = true →
  prep_id (default PyNone (assoc "project_id" items)) = Some k →
  projects (db c) !! k = Some row →
  needs_rollback c = false →
  reconcile false name (PyDict items) c =
  (inr tt, c,
   [Orm ProjectGetOrCreate;
    Write stdout (Some WARNING) (SkippingExisting (PyStr k))]).
Proof.
  intros Ht Hk Hrow Hnr. unfold reconcile, bind at 1. simpl. rewrite Ht. simpl.
  unfold bind at 1. simpl. unfold bind at 1, Project_get_or_create, bind at 1.
  simpl. rewrite Hnr, Hk. unfold bind at 1. simpl. by rewrite Hrow.
Qed.

Lemma truthy_dict_with_identifier items :
  truthy (default PyNone (assoc "project_id" items)) = true →
  truthy (PyDict items) = true.
Proof. by destruct items. Qed.

(** ** The loop and the transaction *)

Lemma exec_for_each_cons {A} (x : A) rest body c :
  exec (for_each (x :: rest) body) c =
  match exec (body x) c with
  | (inl e, c1) => (inl e, c1)
  | (inr _, c1) => exec (for_each rest body) c1
  end.
Proof. simpl. by rewrite exec_bind. Qed.

Lemma reconcile_effect_marked update_existing extracted_data c :
  needs_rollback c = true →
  (reconcile_effect update_existing extracted_data c).2 = c.
Proof.
  intros H. unfold reconcile_effect.
  destruct extracted_data; try done.
  destruct (negb (truthy _)); [done|]. by rewrite H.
Qed.

(** Once the transaction is marked for rollback, the rest of the directory
    changes nothing. *)
Lemma exec_for_each_marked update_existing entries c :
  needs_rollback c = true →
  (exec (for_each entries (process_file update_existing)) c).2 = c.
Proof.
  intros H. induction entries as [|f rest IH]; [done|].
  rewrite exec_for_each_cons, exec_process_file.
  destruct (truthy (raw_text f)); [|done].
  destruct (extraction (reply f)) as [e|extracted_data]; [done|].
  destruct (truthy extracted_data); [|done].
  by rewrite reconcile_effect_marked.
Qed.

Lemma handle_committed directory_path entries update_existing s0 :
  (handle directory_path (Some entries) update_existing s0).1.2 =
  match exec (for_each entries (process_file update_existing)) (mkConn s0 false) with
  | (inr _, c) => if needs_rollback c then s0 else db c
  | (inl _, _) => s0
  end.
Proof.
  unfold handle, atomic, handle_body, exec, bind at 1. simpl. unfold bind at 1.
  destruct (for_each entries _ _) as [[[e|[]] c] t]; simpl; done.
Qed.

Lemma handle_run directory_path entries update_existing s0 :
  handle directory_path (Some entries) update_existing s0 =
  match for_each entries (process_file update_existing) (mkConn s0 false) with
  | (inr _, c, t) =>
      (inr tt, if needs_rollback c then s0 else db c,
       Write stdout (Some SUCCESS) (Starting directory_path) ::
       t ++ [Write stdout (Some SUCCESS) ProcessingComplete])
  | (inl e, _, t) =>
      (inl e, s0, Write stdout (Some SUCCESS) (Starting directory_path) :: t)
  end.
Proof.
  unfold handle, atomic, handle_body, bind at 1. simpl. unfold bind at 1.
  destruct (for_each entries _ _) as [[[e|[]] c] t]; simpl; done.
Qed.

(** ** Lookup rows and scalar fields across reconciliations *)



(** Lookup rows are only ever added, and never a second row with a name
    that is already there, whatever happens to the record. *)
Lemma reconcile_effect_dictionary update_existing extracted_data c :
  (NoDup (dictionary (db c)) →
   NoDup (dictionary (db (reconcile_effect update_existing extracted_data c).2))) ∧
  (∀ x, x ∈ dictionary (db c) →
        x ∈ dictionary (db (reconcile_effect update_existing extracted_data c).2)).
Proof.
  assert (Happly : ∀ items p k row,
    (NoDup (dictionary (db c)) →
     NoDup (dictionary (db (apply_effect items p k row (db c)).2))) ∧
    (∀ x, x ∈ dictionary (db c) →
          x ∈ dictionary (db (apply_effect items p k row (db c)).2))).
  { intros items p k row. unfold apply_effect.
    destruct (effect _ _ _ _) as [[[res row'] D'] b] eqn:He. simpl.
    split; [by eapply effect_NoDup|by eapply effect_mono]. }
  unfold reconcile_effect.
  destruct extracted_data as [| | | | |?|items]; try done.
  destruct (negb (truthy _)); [done|].
  destruct (needs_rollback c); [done|].
  destruct (prep_id _) as [k|]; [|done].
  destruct (projects (db c) !! k) as [row|].
  - destruct update_existing; [apply Happly|done].
  - destruct (prep_column project_name_column _) as [n|]; [|done].
    destruct (prep_column project_status_column _) as [st|]; [|done].
    apply Happly.
Qed.



Lemma prep_column_from_db_inv col x n :
  prep_column col (from_db x) = Some n → n = x.
Proof.
  destruct x as [s|]; simpl.
  - by intros [= <-].
  - destruct (nullable schema col); by intros [= <-].
Qed.

(** The half of C3 that the command keeps: when a project that exists is
    reconciled and the key of a scalar field is missing from the record, the
    stored value of that field stays. *)
Lemma absent_scalar_is_kept update_existing name extracted_data k c c' row :
  reconciled update_existing name extracted_data k c c' →
  projects (db c) !! k = Some row →
  ∃ row', projects (db c') !! k = Some row' ∧
    (∀ items, extracted_data = PyDict items →
              assoc "project_name" items = None →
              project_name row' = project_name row) ∧
    (∀ items, extracted_data = PyDict items →
              assoc "project_status" items = None →
              project_status row' = project_status row).
Proof.
  intros (H & pid & Hpid & Ht & Hk & Hupd) Hrow.
  destruct (reconcile_success _ _ _ _ _ _ _ H Hpid Ht Hk Hupd)
    as (items & p & row0 & row' & D' & -> & Hnr & He & -> & Hrel & _ & Hsame).
  destruct (Hsame row Hrow) as [-> ->].
  destruct (effect_ok _ _ _ _ _ _ _ He)
    as (_ & sp & rp & ra & n & st & D1 & D2 & D3 & _ & _ & _ & Hn & Hst & Hs).
  destruct (related_steps_frame _ _ _ _ _ _ _ Hs) as [(Fn & Fs & _) _].
  simpl in Fn, Fs. exists row'. cbn [db projects].
  split; [apply lookup_insert_eq|]. split.
  - intros items' [= <-] Habs. rewrite Habs in Hn. simpl in Hn.
    apply prep_column_from_db_inv in Hn. congruence.
  - intros items' [= <-] Habs. rewrite Habs in Hst. simpl in Hst.
    apply prep_column_from_db_inv in Hst. congruence.
Qed.

(** ** The claims *)

(** C7. Processing a document twice in sequence with update enabled leaves
    the connection exactly as processing it once does: the same project rows
    with the same fields and related sets, the same lookup rows (the second
    pass creates none), and the same rollback mark.  This holds for every
    directory entry, so in particular for every document that carries a valid
    identifier. *)
Theorem reprocessing_is_idempotent f c :
  exec (process_file true f ;; process_file true f) c =
  exec (process_file true f) c.
Proof.
  rewrite exec_bind, exec_process_file.
  destruct (truthy (raw_text f)) eqn:Hraw.
  - destruct (extraction (reply f)) as [e|extracted_data] eqn:Hx; [done|].
    cbn beta iota. rewrite exec_process_file, Hraw, Hx.
    destruct (truthy extracted_data); [|done].
    by rewrite reconcile_effect_idem.
  - cbn beta iota. by rewrite exec_process_file, Hraw.
Qed.

(** C5, amended. A document whose extraction yields a non-empty mapping with
    no identifier (project_id missing, null or otherwise falsy) is reported
    as skipped, with a warning and not an error, and makes no ORM call; the
    connection is unchanged. *)
Theorem record_without_identifier_is_skipped update_existing f c items :
  truthy (raw_text f) = true →
  extraction (reply f) = inr (PyDict items) →
  items ≠ [] →
  truthy (default PyNone (assoc "project_id" items)) = false →
  let t := read_trace f ++ Write stdout None Extracting ::
           extraction_trace (reply f) ++
           [Write stderr (Some WARNING) (SkippingNoProjectId (filename f))] in
  process_file update_existing f c = (inr tt, c, t) ∧
  orm_calls t = [] ∧
  count_reported failed t = 0.
Proof.
  intros Hraw Hx Hne Ht t. split_and!.
  - rewrite process_file_run, Hraw, Hx.
    assert (truthy (PyDict items) = true) as -> by by destruct items.
    by rewrite (reconcile_no_identifier _ _ _ _ Ht).
  - subst t. rewrite orm_calls_app, orm_calls_read_trace. simpl.
    by rewrite orm_calls_app, orm_calls_extraction_trace.
  - subst t. rewrite count_reported_app, count_reported_read_trace.
    rewrite count_reported_cons_None by done.
    by rewrite count_reported_app, count_reported_extraction_trace.
Qed.

(** C10. When the reply of the model service is an object without the
    "response" key, or its payload decodes to the empty object, the document
    is reported as an extraction failure (an error, not the missing-identifier
    warning), the body of the [try] is not entered, no ORM call is made and
    the connection is unchanged.  [json.loads] decodes the default payload
    ["{}"] to the empty object. *)
Theorem empty_extraction_is_a_failure update_existing f c response_data :
  truthy (raw_text f) = true →
  reply f = Response (PyDict response_data) →
  (assoc "response" response_data = None ∧ json_loads "{}" = Some (PyDict [])) ∨
  (∃ s, assoc "response" response_data = Some (PyStr s) ∧
        json_loads s = Some (PyDict [])) →
  let t := read_trace f ++
           [Write stdout None Extracting;
            Write stderr (Some ERROR) (FailedToExtract (filename f))] in
  process_file update_existing f c = (inr tt, c, t) ∧
  orm_calls t = [] ∧
  count_reported skipped t = 0.
Proof.
  intros Hraw Hreply Hcase t.
  assert (extraction (reply f) = inr (PyDict []) ∧
          extraction_trace (reply f) = []) as [Hx Hxt].
  { rewrite Hreply. unfold extraction, extraction_trace. cbn [dict_get].
    destruct Hcase as [[Ha Hl]|(s & Ha & Hl)]; rewrite Ha; simpl;
      by rewrite Hl. }
  split_and!.
  - by rewrite process_file_run, Hraw, Hx, Hxt.
  - subst t. by rewrite orm_calls_app, orm_calls_read_trace.
  - subst t. by rewrite count_reported_app, count_reported_read_trace.
Qed.


(** C3 at the failing input: project P1 is stored with the name "Trial X" and
    is reprocessed, update enabled, with an extraction whose project_name is
    null.  Whatever the schema, the stored name is not preserved in a usable
    transaction: either the column takes NULL and the name is overwritten
    with NULL, or the save is refused and the whole transaction is marked for
    rollback. *)
Theorem null_project_name_is_assigned :
  let c' := (exec (reconcile true "proj1.docx" record_null_name)
               (mkConn store_AB false)).2 in
  if nullable schema project_name_column
  then project_name <$> projects (db c') !! "P1" = Some None ∧
       needs_rollback c' = false
  else needs_rollback c' = true.
Proof.
  rewrite exec_reconcile. unfold reconcile_effect, record_null_name, store_AB.
  simpl. rewrite lookup_singleton_eq. unfold apply_effect, effect. simpl.
  destruct (nullable schema project_name_column); simpl; [|done].
  by rewrite lookup_insert_eq.
Qed.

(** * Further properties of the command *)

(** ** Strings *)

Lemma append_nil_l s : "" +:+ s = s.
Proof. reflexivity. Qed.

Lemma append_cons a s1 s2 : String a s1 +:+ s2 = String a (s1 +:+ s2).
Proof. reflexivity. Qed.

Lemma append_nil_r s : s +:+ "" = s.
Proof.
  induction s as [|a s IH]; [done|]. by rewrite append_cons, IH.
Qed.

Lemma append_assoc s1 s2 s3 : (s1 +:+ s2) +:+ s3 = s1 +:+ s2 +:+ s3.
Proof.
  induction s1 as [|a s1 IH]; [done|]. by rewrite !append_cons, IH.
Qed.

Lemma append_eq_nil s1 s2 : s1 +:+ s2 = "" ↔ s1 = "" ∧ s2 = "".
Proof.
  destruct s1 as [|a s1].
  - rewrite append_nil_l. split; [done|by intros [_ ?]].
  - rewrite append_cons. split; [done|by intros [? _]].
Qed.

Lemma lower_append s1 s2 : lower (s1 +:+ s2) = lower s1 +:+ lower s2.
Proof.
  induction s1 as [|a s1 IH]; [done|].
  rewrite append_cons. cbn [lower]. by rewrite append_cons, IH.
Qed.

Lemma endswith_append s suffix : endswith (s +:+ suffix) suffix = true.
Proof.
  induction s as [|a s IH].
  - rewrite append_nil_l. destruct suffix; cbn [endswith]; by rewrite String.eqb_refl.
  - rewrite append_cons. cbn [endswith]. rewrite IH. apply orb_true_r.
Qed.

Lemma endswith_pdf_not_docx s : endswith s ".pdf" = true → endswith s ".docx" = false.
Proof.
  induction s as [|a s IH]; [done|].
  cbn [endswith]. intros [Heq|Hrest]%orb_true_iff.
  - apply String.eqb_eq in Heq. by injection Heq as -> ->.
  - rewrite (IH Hrest), orb_false_r. apply String.eqb_neq. intros Heq.
    injection Heq as -> ->. by vm_compute in Hrest.
Qed.

Lemma truthy_str s : truthy (PyStr s) = false ↔ s = "".
Proof. by destruct s. Qed.

(** ** The readers *)

(** X1. The reader is chosen by the extension of the name, whatever the case
    of its letters: a name that ends in a spelling of ".docx" is announced
    and read as a word-processor file, a name that ends in a spelling of
    ".pdf" is announced and read as a PDF and never as a word-processor
    file. *)
Theorem extension_decides_reader f stem ext c :
  filename f = stem +:+ ext →
  (lower ext = ".docx" →
   read_text f c =
   (write stdout None (ProcessingDocx (filename f)) ;;
    extract_text_from_docx f) c) ∧
  (lower ext = ".pdf" →
   read_text f c =
   (write stdout None (ProcessingPdf (filename f)) ;;
    extract_text_from_pdf f) c).
Proof.
  intros Hname. unfold read_text. rewrite Hname, lower_append. split.
  - intros ->. by rewrite endswith_append.
  - intros ->. by rewrite (endswith_pdf_not_docx _ (endswith_append _ _)),
      endswith_append.
Qed.

Lemma join_backslash_n_empty paragraphs :
  join backslash_n paragraphs = "" ↔ paragraphs = [] ∨ paragraphs = [""].
Proof.
  destruct paragraphs as [|p [|q rest]].
  - split; [by left|done].
  - simpl. split; [intros ->; by right|]. by intros [?|[= ->]].
  - split.
    + change (join backslash_n (p :: q :: rest))
        with (p +:+ backslash_n +:+ join backslash_n (q :: rest)).
      intros [_ [? _]%append_eq_nil]%append_eq_nil. done.
    + by intros [?|?].
Qed.

(** X2. The word-processor reader never raises and never touches the
    connection.  What it returns is falsy, so that the file gets no further,
    exactly when the parsing library raised, or found no paragraph, or found
    a single empty one: as soon as there are two paragraphs the separator
    makes the text non-empty. *)
Theorem docx_reader_result f c :
  ∃ v t, extract_text_from_docx f c = (inr v, c, t) ∧
    (truthy v = false ↔
     parsed f = None ∨ parsed f = Some [] ∨ parsed f = Some [""]).
Proof.
  unfold extract_text_from_docx. destruct (parsed f) as [paragraphs|].
  - eexists _, _. split; [done|].
    rewrite truthy_str, join_backslash_n_empty. split.
    + intros [->| ->]; auto.
    + intros [?|[[= ->]|[= ->]]]; auto. done.
  - eexists _, _. split; [done|]. split; [by left|done].
Qed.

Lemma pdf_text_empty text pages :
  pdf_text text pages = "" ↔ text = "" ∧ Forall (λ page_text, page_text = "") pages.
Proof.
  revert text. induction pages as [|page_text rest IH]; intros text; simpl.
  - split; [by intros ->|by intros [-> _]].
  - destruct page_text as [|a page_text]; simpl.
    + rewrite IH. split.
      * intros [-> ?]. split; [done|by constructor].
      * intros [-> Hall]. split; [done|]. by inversion Hall.
    + rewrite IH. split.
      * intros [[_ [=]]%append_eq_nil _].
      * intros [_ Hall]. by inversion Hall.
Qed.

(** X3. The PDF reader never raises and never touches the connection.  What
    it returns is falsy exactly when the parsing library raised or no page
    has any text. *)
Theorem pdf_reader_result f c :
  ∃ v t, extract_text_from_pdf f c = (inr v, c, t) ∧
    (truthy v = false ↔
     parsed f = None ∨
     ∃ pages, parsed f = Some pages ∧
              Forall (λ page_text, page_text = "") pages).
Proof.
  unfold extract_text_from_pdf. destruct (parsed f) as [pages|].
  - eexists _, _. split; [done|]. rewrite truthy_str, pdf_text_empty. split.
    + intros [_ Hall]. right. by exists pages.
    + intros [?|(pages' & [= <-] & Hall)]; done.
  - eexists _, _. split; [done|]. split; [by left|done].
Qed.

Lemma pdf_text_accumulates text pages :
  pdf_text text pages = text +:+ pdf_text "" pages.
Proof.
  revert text. induction pages as [|page_text rest IH]; intros text;
    cbn [pdf_text].
  - by rewrite append_nil_r.
  - destruct (truthy (PyStr page_text)); [|apply IH].
    rewrite (IH (text +:+ _)), (IH ("" +:+ _)), append_nil_l.
    by rewrite !append_assoc.
Qed.

(** X4. The text of a PDF is built page by page, in page order: the text of
    a document is the text of its first pages followed by the text of the
    remaining pages, a page with text contributes its text and the
    separator, a page without text contributes nothing. *)
Theorem pdf_text_by_pages pages1 pages2 page_text :
  pdf_text "" (pages1 ++ pages2) = pdf_text "" pages1 +:+ pdf_text "" pages2 ∧
  pdf_text "" [page_text] =
    (if truthy (PyStr page_text) then page_text +:+ backslash_n else "").
Proof.
  split.
  - induction pages1 as [|p rest IH]; [done|].
    change ((p :: rest) ++ pages2) with (p :: (rest ++ pages2)).
    cbn [pdf_text]. destruct (truthy (PyStr p)); [|done].
    rewrite pdf_text_accumulates, (pdf_text_accumulates _ rest), IH.
    by rewrite <- append_assoc.
  - cbn [pdf_text]. by destruct (truthy (PyStr page_text)).
Qed.

(** ** Documents that get no further than the extraction *)

(** X6. A request that fails (no connection, a timeout, a refused status, a
    body that is not JSON) and a payload that [json.loads] rejects end the
    same way: one diagnostic is printed, the document is reported as an
    extraction failure, no ORM call is made and the connection is
    unchanged.  Neither raises. *)
Theorem failed_request_is_reported update_existing f c diagnostic :
  truthy (raw_text f) = true →
  (reply f = RequestException ∧ diagnostic = ApiError) ∨
  (∃ response_data s,
     reply f = Response (PyDict response_data) ∧
     default (PyStr "{}") (assoc "response" response_data) = PyStr s ∧
     json_loads s = None ∧ diagnostic = JsonDecodeError s) →
  let t := read_trace f ++
           [Write stdout None Extracting; Print diagnostic;
            Write stderr (Some ERROR) (FailedToExtract (filename f))] in
  process_file update_existing f c = (inr tt, c, t) ∧
  orm_calls t = [].
Proof.
  intros Hraw Hreply t. subst t. rewrite process_file_run, Hraw. split.
  - destruct Hreply as [[-> ->]|(response_data & s & -> & Hs & Hl & ->)].
    + done.
    + unfold extraction, extraction_trace. cbn [dict_get]. by rewrite Hs, Hl.
  - by rewrite orm_calls_app, orm_calls_read_trace.
Qed.

Lemma reconcile_no_object update_existing name extracted_data c :
  (∀ items, extracted_data ≠ PyDict items) →
  reconcile update_existing name extracted_data c = (inl AttributeError, c, []).
Proof.
  intros H. unfold reconcile, bind.
  destruct extracted_data as [| | | | | |items]; try done. by destruct (H items).
Qed.

(** X7. An extraction that decodes to something truthy that is not an object
    (a number, a string, a list, true) enters the [try]; its first statement
    raises [AttributeError], which is caught and reported as a database
    error for the file.  No ORM call is made and the connection is
    unchanged. *)
Theorem extraction_that_is_no_object_is_an_error update_existing f c extracted_data :
  truthy (raw_text f) = true →
  extraction (reply f) = inr extracted_data →
  truthy extracted_data = true →
  (∀ items, extracted_data ≠ PyDict items) →
  let t := read_trace f ++ Write stdout None Extracting ::
           extraction_trace (reply f) ++
           [Write stderr (Some ERROR)
              (DatabaseErrorFor (filename f) AttributeError)] in
  process_file update_existing f c = (inr tt, c, t) ∧
  orm_calls t = [].
Proof.
  intros Hraw He Ht Hno t. subst t. split.
  - by rewrite process_file_run, Hraw, He, Ht, reconcile_no_object.
  - rewrite orm_calls_app, orm_calls_read_trace. simpl.
    by rewrite orm_calls_app, orm_calls_extraction_trace.
Qed.

Lemma reconcile_marked update_existing name items c :
  needs_rollback c = true →
  truthy (default PyNone (assoc "project_id" items)) = true →
  reconcile update_existing name (PyDict items) c =
  (inl TransactionManagementError, c, [Orm ProjectGetOrCreate]).
Proof.
  intros Hnr Ht. unfold reconcile, bind at 1. simpl. rewrite Ht. simpl.
  unfold bind at 1. simpl. unfold bind at 1, Project_get_or_create, bind at 1.
  simpl. by rewrite Hnr.
Qed.

(** X8. Once a refused [save] has marked the transaction, a later document
    that carries an identifier cannot be reconciled: the lookup of its
    project raises [TransactionManagementError], which is reported as a
    database error for that file, and the connection stays as it was. *)
Theorem document_after_refused_save_is_refused update_existing f c items :
  needs_rollback c = true →
  truthy (raw_text f) = true →
  extraction (reply f) = inr (PyDict items) →
  truthy (default PyNone (assoc "project_id" items)) = true →
  process_file update_existing f c =
  (inr tt, c,
   read_trace f ++ Write stdout None Extracting ::
   extraction_trace (reply f) ++
   [Orm ProjectGetOrCreate;
    Write stderr (Some ERROR)
      (DatabaseErrorFor (filename f) TransactionManagementError)]).
Proof.
  intros Hnr Hraw He Ht.
  rewrite process_file_run, Hraw, He, (truthy_dict_with_identifier _ Ht).
  by rewrite (reconcile_marked _ _ _ _ Hnr Ht).
Qed.

Lemma Project_get_or_create_new project_id_val default_name c found c1 t1 :
  (∀ k, prep_id project_id_val = Some k → projects (db c) !! k = None) →
  Project_get_or_create project_id_val default_name c = (inr found, c1, t1) →
  found.2 = true.
Proof.
  intros Hnew. unfold Project_get_or_create, bind at 1, execute.
  destruct (needs_rollback c); [done|].
  destruct (prep_id project_id_val) as [k|]; [|done].
  unfold bind at 1, get_db. rewrite (Hnew k eq_refl).
  destruct (prep_column project_name_column _) as [n|]; [|done].
  destruct (prep_column project_status_column _) as [st|]; [|done].
  unfold bind, put_db, ret. by intros [= <- _ _].
Qed.

(** X9. The update flag matters only for a project that exists: on a record
    whose identifier names no stored project the reconciliation does the
    same, writes the same and leaves the same connection with and without
    it. *)
Theorem update_flag_only_matters_for_existing name items c :
  (∀ k, prep_id (default PyNone (assoc "project_id" items)) = Some k →
        projects (db c) !! k = None) →
  reconcile true name (PyDict items) c = reconcile false name (PyDict items) c.
Proof.
  intros Hnew. unfold reconcile, bind. cbn [lift dict_get ret].
  destruct (negb (truthy _)); [done|].
  destruct (Project_get_or_create _ _ c) as [[[e|found] c1] t1] eqn:Hg; [done|].
  by rewrite (Project_get_or_create_new _ _ _ _ _ _ Hnew Hg).
Qed.

(** ** The loop *)

Lemma for_each_app {A} (xs ys : list A) body c :
  exec (for_each (xs ++ ys) body) c =
  match exec (for_each xs body) c with
  | (inl e, c1) => (inl e, c1)
  | (inr _, c1) => exec (for_each ys body) c1
  end.
Proof.
  revert c. induction xs as [|x xs IH]; intros c; [done|].
  change ((x :: xs) ++ ys) with (x :: (xs ++ ys)).
  rewrite !exec_for_each_cons. destruct (exec (body x) c) as [[e|[]] c1]; [done|].
  apply IH.
Qed.

Lemma for_each_no_text update_existing entries c :
  Forall (λ f, truthy (raw_text f) = false) entries →
  for_each entries (process_file update_existing) c =
  (inr tt, c, concat (read_trace <$> entries)).
Proof.
  induction 1 as [|f rest Hf _ IH]; [done|].
  cbn [for_each]. unfold bind. rewrite process_file_run, Hf, IH. done.
Qed.

Lemma read_trace_no_request f : Write stdout None Extracting ∉ read_trace f.
Proof.
  unfold read_trace.
  destruct (endswith _ ".docx").
  { rewrite elem_of_cons. intros [?|Hin]; [done|].
    destruct (parsed f); [by apply elem_of_nil in Hin|].
    by apply list_elem_of_singleton in Hin. }
  destruct (endswith _ ".pdf"); [|apply not_elem_of_nil].
  rewrite elem_of_cons. intros [?|Hin]; [done|].
  destruct (parsed f); [by apply elem_of_nil in Hin|].
  by apply list_elem_of_singleton in Hin.
Qed.

(** X10. A directory in which no entry yields any text (entries that are
    neither word-processor files nor PDFs, files that cannot be read, empty
    documents) is walked to the end: the run returns, writes the starting
    line, one line for each entry with a known extension (and the reader's
    diagnostic where it failed) and the final line, never announces a
    request, makes no ORM call, and commits the store as it was. *)
Theorem directory_without_text_changes_nothing
    directory_path entries update_existing s0 :
  Forall (λ f, truthy (raw_text f) = false) entries →
  let t := Write stdout (Some SUCCESS) (Starting directory_path) ::
           concat (read_trace <$> entries) ++
           [Write stdout (Some SUCCESS) ProcessingComplete] in
  handle directory_path (Some entries) update_existing s0 = (inr tt, s0, t) ∧
  orm_calls t = [] ∧
  Write stdout None Extracting ∉ t.
Proof.
  intros Hall t. subst t. split_and!.
  - by rewrite handle_run, for_each_no_text.
  - change (orm_calls (concat (read_trace <$> entries) ++
              [Write stdout (Some SUCCESS) ProcessingComplete]) = []).
    rewrite orm_calls_app, app_nil_r.
    clear Hall. induction entries as [|f rest IH]; [done|].
    cbn [fmap list_fmap concat]. by rewrite orm_calls_app, orm_calls_read_trace.
  - rewrite elem_of_cons, elem_of_app, list_elem_of_singleton.
    intros [?|[Hin|?]]; [done| |done].
    clear Hall. induction entries as [|f rest IH].
    { by apply elem_of_nil in Hin. }
    cbn [fmap list_fmap concat] in Hin. apply elem_of_app in Hin as [Hin|Hin];
      [|by apply IH].
    by apply read_trace_no_request in Hin.
Qed.

Lemma for_each_returns update_existing entries c :
  (exec (for_each entries (process_file update_existing)) c).1 = inr tt ↔
  Forall (λ f, truthy (raw_text f) = true → ∃ v, extraction (reply f) = inr v)
    entries.
Proof.
  revert c. induction entries as [|f rest IH]; intros c.
  { split; [by constructor|done]. }
  rewrite exec_for_each_cons, exec_process_file, Forall_cons.
  destruct (truthy (raw_text f)).
  - destruct (extraction (reply f)) as [e|v].
    + split; [done|]. intros [H _]. by destruct (H eq_refl).
    + rewrite IH. split; [|by intros [_ ?]]. intros ?. split; [|done]. by exists v.
  - rewrite IH. split; [|by intros [_ ?]]. by intros ?.
Qed.

(** X11. A failure of the reconciliation never ends the run.  Over an
    existing directory the run returns normally exactly when no document
    makes the extraction raise; in particular every exception that the store
    raises is caught at the document boundary. *)
Theorem run_returns_unless_extraction_raises
    directory_path entries update_existing s0 :
  (handle directory_path (Some entries) update_existing s0).1.1 = inr tt ↔
  Forall (λ f, truthy (raw_text f) = true → ∃ v, extraction (reply f) = inr v)
    entries.
Proof.
  rewrite <- (for_each_returns update_existing entries (mkConn s0 false)).
  rewrite handle_run. unfold exec.
  destruct (for_each entries _ _) as [[[e|[]] c] t]; simpl; done.
Qed.


(** X13. An exception of the extraction is not caught (it is raised outside
    the [try]): the run stops at that document, the exception leaves the
    command, and nothing is committed, not even what the documents before it
    wrote. *)
Theorem raising_extraction_aborts_the_run
    directory_path before f after update_existing s0 e :
  Forall (λ f, truthy (raw_text f) = true → ∃ v, extraction (reply f) = inr v)
    before →
  truthy (raw_text f) = true →
  extraction (reply f) = inl e →
  (handle directory_path (Some (before ++ f :: after)) update_existing s0).1 =
  (inl e, s0).
Proof.
  intros Hbefore Hraw He.
  apply (for_each_returns update_existing before (mkConn s0 false)) in Hbefore.
  pose proof (for_each_app before (f :: after) (process_file update_existing)
                (mkConn s0 false)) as Happ.
  destruct (exec (for_each before _) _) as [[e1|[]] c1]; [done|].
  rewrite exec_for_each_cons, exec_process_file, Hraw, He in Happ.
  rewrite handle_run. unfold exec in Happ.
  destruct (for_each (before ++ f :: after) _ _) as [[[e2|[]] c2] t2];
    simpl in Happ; by simplify_eq.
Qed.

(** X14. A refused [save] undoes the whole batch: when the documents read so
    far leave the transaction marked for rollback, the run commits the store
    it started from, whatever follows in the directory. *)
Theorem refused_save_undoes_the_batch
    directory_path before after update_existing s0 c :
  exec (for_each before (process_file update_existing)) (mkConn s0 false) =
    (inr tt, c) →
  needs_rollback c = true →
  (handle directory_path (Some (before ++ after)) update_existing s0).1.2 = s0.
Proof.
  intros Hbefore Hnr. rewrite handle_committed, for_each_app, Hbefore.
  pose proof (exec_for_each_marked update_existing after c Hnr) as Hafter.
  destruct (exec (for_each after _) c) as [[e|[]] c']; [done|].
  simpl in Hafter. subst c'. by rewrite Hnr.
Qed.

(** ** Invariants of the store *)

(** What every turn of the loop preserves, the run preserves: the committed
    store is the store the run started from or the store after the last
    turn. *)
Lemma for_each_invariant (I : Store → Prop) update_existing :
  (∀ extracted_data c,
     I (db c) → I (db (reconcile_effect update_existing extracted_data c).2)) →
  ∀ entries c,
    I (db c) →
    I (db (exec (for_each entries (process_file update_existing)) c).2).
Proof.
  intros Hstep entries. induction entries as [|f rest IH]; intros c Hc; [done|].
  rewrite exec_for_each_cons, exec_process_file.
  destruct (truthy (raw_text f)); [|by apply IH].
  destruct (extraction (reply f)) as [e|extracted_data]; [done|].
  apply IH. destruct (truthy extracted_data); [|done]. by apply Hstep.
Qed.

Lemma handle_invariant (I : Store → Prop) directory_path listing update_existing s0 :
  (∀ extracted_data c,
     I (db c) → I (db (reconcile_effect update_existing extracted_data c).2)) →
  I s0 →
  I (handle directory_path listing update_existing s0).1.2.
Proof.
  intros Hstep H0. destruct listing as [entries|]; [|done].
  rewrite handle_committed.
  pose proof (for_each_invariant I update_existing Hstep entries
                (mkConn s0 false) H0) as H.
  destruct (exec _ _) as [[e|[]] c]; [done|].
  by destruct (needs_rollback c).
Qed.

(** A reconciliation leaves the connection as it was, or writes one project
    row: the row found under the identifier, or an empty row just inserted
    under it.  The references of the instance are those of that row. *)
Lemma reconcile_effect_cases update_existing extracted_data c :
  (reconcile_effect update_existing extracted_data c).2 = c ∨
  ∃ items p k row res row' D' b,
    extracted_data = PyDict items ∧
    effect items p row (dictionary (db c)) = (res, row', D', b) ∧
    (reconcile_effect update_existing extracted_data c).2 =
      mkConn (mkStore (<[k := row']> (projects (db c))) D') b ∧
    attr_sponsor p = sponsor row ∧
    attr_responsible_party p = responsible_party row ∧
    attr_route_of_admin p = route_of_admin row ∧
    (projects (db c) !! k = Some row ∧ update_existing = true ∨
     projects (db c) !! k = None ∧
     sponsor row = None ∧ responsible_party row = None ∧
     route_of_admin row = None ∧ ∀ r, related r row = []).
Proof.
  unfold reconcile_effect.
  destruct extracted_data as [| | | | |?|items]; try by left.
  destruct (negb (truthy _)); [by left|].
  destruct (needs_rollback c); [by left|].
  destruct (prep_id _) as [k|]; [|by left].
  destruct (projects (db c) !! k) as [row|] eqn:Hrow.
  - destruct update_existing; [|by left]. right. unfold apply_effect.
    destruct (effect _ _ _ _) as [[[res row'] D'] b] eqn:He.
    eexists items, _, k, row, res, row', D', b. split_and!; try done.
    left. by rewrite Hrow.
  - destruct (prep_column project_name_column _) as [n|]; [|by left].
    destruct (prep_column project_status_column _) as [st|]; [|by left].
    right. unfold apply_effect.
    destruct (effect _ _ _ _) as [[[res row'] D'] b] eqn:He.
    eexists items, _, k, _, res, row', D', b. split_and!; try done.
    right. split_and!; try done. by intros [].
Qed.

(** X15. The command never deletes: whatever the batch does and however it
    ends, every project of the store it started from is still there in the
    committed store, and so is every lookup row. *)
Theorem run_deletes_nothing directory_path listing update_existing s0 :
  let s := (handle directory_path listing update_existing s0).1.2 in
  (∀ k, is_Some (projects s0 !! k) → is_Some (projects s !! k)) ∧
  (∀ x, x ∈ dictionary s0 → x ∈ dictionary s).
Proof.
  apply (handle_invariant (λ s,
    (∀ k, is_Some (projects s0 !! k) → is_Some (projects s !! k)) ∧
    (∀ x, x ∈ dictionary s0 → x ∈ dictionary s))); [|done].
  intros extracted_data c [Hp Hd]. split.
  - intros k Hk. apply Hp in Hk.
    destruct (reconcile_effect_cases update_existing extracted_data c)
      as [->|(items & p & k0 & row & res & row' & D' & b & _ & _ & -> & _)];
      [done|].
    cbn [db projects]. destruct (decide (k0 = k)) as [->|Hne].
    + by rewrite lookup_insert_eq.
    + by rewrite lookup_insert_ne.
  - intros x Hx. by apply reconcile_effect_dictionary, Hd.
Qed.

(** X16. Without the update flag a run changes no project that is already
    stored: whatever the documents say, and whether or not the run is
    committed, the row of every such project is exactly what it was. *)
Theorem without_update_stored_projects_stay directory_path listing s0 k row :
  projects s0 !! k = Some row →
  projects (handle directory_path listing false s0).1.2 !! k = Some row.
Proof.
  apply (handle_invariant (λ s, projects s !! k = Some row)).
  intros extracted_data c Hk.
  destruct (reconcile_effect_cases false extracted_data c)
    as [->|(items & p & k0 & row0 & res & row' & D' & b & _ & _ & -> & _ & _ & _
            & [[_ ?]|[Hnew _]])]; [done|done|].
  cbn [db projects]. rewrite lookup_insert_ne; [done|]. intros ->.
  by rewrite Hnew in Hk.
Qed.

(** ** Referential integrity *)

Lemma row_resolved_mono row (D D' : list (lookup_model * string)) :
  (∀ x, x ∈ D → x ∈ D') → row_resolved row D → row_resolved row D'.
Proof.
  intros Hsub (Hs & Hp & Ha & Hr). split_and!; intros; apply Hsub; eauto.
Qed.

Lemma lookup_step_stored key t items D n D' :
  lookup_step key t items D = (inr (Some n), D') → (t, n) ∈ D'.
Proof.
  unfold lookup_step. destruct (truthy _); [|done].
  destruct (prep_name t _) as [m|]; [|done].
  intros [= -> <-]. apply elem_of_dict_add. by right.
Qed.

Lemma related_step_members r items row D res row' D' :
  related_step r items row D = (res, row', D') →
  ∀ n, n ∈ related r row' → n ∈ related r row ∨ (related_model r, n) ∈ D'.
Proof.
  unfold related_step. destruct (truthy _).
  - destruct (py_iter _) as [e|item_names].
    + intros [= _ <- _] n. rewrite related_set_related. by intros ?%elem_of_nil.
    + destruct (link _ _ _ _) as [[res1 names] D1] eqn:Hl.
      intros [= _ <- <-] n. rewrite related_set_related. intros Hn.
      destruct (link_stored _ _ _ _ _ _ _ Hl n Hn) as [?%elem_of_nil|?]; [done|].
      by right.
  - intros [= _ <- _] n ?. by left.
Qed.

Lemma related_step_resolved r items row D res row' D' :
  related_step r items row D = (res, row', D') →
  row_resolved row D → row_resolved row' D'.
Proof.
  intros Hstep (Hs & Hp & Ha & Hr).
  pose proof (related_step_mono _ _ _ _ _ _ _ Hstep) as Hsub.
  destruct (related_step_frame _ _ _ _ _ _ _ Hstep)
    as [(_ & _ & Fs & Fp & Fa) Hother].
  split_and!.
  - intros n Hn. apply Hsub, Hs. congruence.
  - intros n Hn. apply Hsub, Hp. congruence.
  - intros n Hn. apply Hsub, Ha. congruence.
  - intros r2 n Hn. destruct (decide (r = r2)) as [<-|Hne].
    + destruct (related_step_members _ _ _ _ _ _ _ Hstep n Hn) as [?|?];
        [|done]. by apply Hsub, Hr.
    + rewrite (Hother r2 Hne) in Hn. by apply Hsub, Hr.
Qed.

Lemma related_steps_resolved rs items row D res row' D' :
  related_steps rs items row D = (res, row', D') →
  row_resolved row D → row_resolved row' D'.
Proof.
  revert row D. induction rs as [|r rest IH]; intros row D; simpl.
  { by intros [= _ <- <-]. }
  destruct (related_step r items row D) as [[[e|[]] row1] D1] eqn:Hstep.
  - intros [= _ <- <-]. by eapply related_step_resolved.
  - intros Hrest Hrow. eapply IH; [done|]. by eapply related_step_resolved.
Qed.

Lemma supplied_or_Some o attr n :
  supplied_or o attr = Some n → o = Some n ∨ (o = None ∧ attr = Some n).
Proof. destruct o; [by left|by right]. Qed.

Lemma effect_resolved items p row D res row' D' b :
  effect items p row D = (res, row', D', b) →
  attr_sponsor p = sponsor row →
  attr_responsible_party p = responsible_party row →
  attr_route_of_admin p = route_of_admin row →
  row_resolved row D → row_resolved row' D'.
Proof.
  intros He Es Ep Ea Hrow. pose proof (effect_mono _ _ _ _ _ _ _ _ He) as Hsub.
  revert He. unfold effect.
  destruct (lookup_step "sponsor_name" _ _ _) as [[e|sp] D1] eqn:H1.
  { intros [= _ <- _ _]. by eapply row_resolved_mono. }
  destruct (lookup_step "responsible_party" _ _ _) as [[e|rp] D2] eqn:H2.
  { intros [= _ <- _ _]. by eapply row_resolved_mono. }
  destruct (lookup_step "route_of_admin" _ _ _) as [[e|ra] D3] eqn:H3.
  { intros [= _ <- _ _]. by eapply row_resolved_mono. }
  destruct (prep_column project_name_column _) as [n|];
    [|intros [= _ <- _ _]; by eapply row_resolved_mono].
  destruct (prep_column project_status_column _) as [st|];
    [|intros [= _ <- _ _]; by eapply row_resolved_mono].
  destruct (related_steps _ _ _ _) as [[res1 row1] D4] eqn:Hs.
  intros [= _ <- <- _].
  eapply related_steps_resolved; [done|].
  pose proof (lookup_step_mono _ _ _ _ _ _ H1) as M1.
  pose proof (lookup_step_mono _ _ _ _ _ _ H2) as M2.
  pose proof (lookup_step_mono _ _ _ _ _ _ H3) as M3.
  destruct Hrow as (Hs0 & Hp0 & Ha0 & Hr0).
  split_and!; cbn [sponsor responsible_party route_of_admin].
  - intros m [->|[-> Hm]]%supplied_or_Some.
    + by apply M3, M2, (lookup_step_stored _ _ _ _ _ _ H1).
    + apply M3, M2, M1, Hs0. congruence.
  - intros m [->|[-> Hm]]%supplied_or_Some.
    + by apply M3, (lookup_step_stored _ _ _ _ _ _ H2).
    + apply M3, M2, M1, Hp0. congruence.
  - intros m [->|[-> Hm]]%supplied_or_Some.
    + by apply (lookup_step_stored _ _ _ _ _ _ H3).
    + apply M3, M2, M1, Ha0. congruence.
  - intros r m Hm. apply M3, M2, M1, Hr0. by destruct r.
Qed.

Lemma reconcile_effect_resolved update_existing extracted_data c :
  references_resolve (db c) →
  references_resolve (db (reconcile_effect update_existing extracted_data c).2).
Proof.
  intros Hc.
  destruct (reconcile_effect_cases update_existing extracted_data c)
    as [->|(items & p & k & row & res & row' & D' & b & _ & He & -> & Es & Ep & Ea
            & Hcase)]; [done|].
  intros k2 row2. cbn [db projects dictionary].
  destruct (decide (k = k2)) as [<-|Hne].
  - rewrite lookup_insert_eq. intros [= <-].
    eapply effect_resolved; try done.
    destruct Hcase as [[Hrow _]|(_ & Hs & Hp & Ha & Hr)]; [by eapply Hc|].
    split_and!; try (intros ? ?; congruence).
    intros r m. rewrite Hr. by intros ?%elem_of_nil.
  - rewrite lookup_insert_ne by done. intros Hrow2.
    eapply row_resolved_mono; [by eapply effect_mono|]. by eapply Hc.
Qed.

(** X17. The command keeps the references of the store resolved.  If in the
    store it starts from every sponsor, responsible party, route of
    administration and related row that a project points to exists, then so
    it is in the store it commits: a row is always fetched or created before
    it is linked, also when the reconciliation of a document is cut short by
    an exception. *)
Theorem run_keeps_references_resolved directory_path listing update_existing s0 :
  references_resolve s0 →
  references_resolve (handle directory_path listing update_existing s0).1.2.
Proof.
  apply (handle_invariant references_resolve). intros extracted_data c.
  apply reconcile_effect_resolved.
Qed.

(** ** The fields of a reconciled project *)

(** A reconciled record was applied to the row of its project through an
    instance that carries the references the project had, and, when the
    project is new, the default name and status. *)
Lemma reconciled_effect update_existing name extracted_data k c c' :
  reconciled update_existing name extracted_data k c c' →
  ∃ items p row0 row' D',
    extracted_data = PyDict items ∧
    effect items p row0 (dictionary (db c)) = (inr tt, row', D', false) ∧
    c' = mkConn (mkStore (<[k := row']> (projects (db c))) D') false ∧
    attr_sponsor p = project_sponsor k (db c) ∧
    attr_responsible_party p = project_responsible_party k (db c) ∧
    attr_route_of_admin p = project_route_of_admin k (db c) ∧
    (projects (db c) !! k = None →
     attr_project_name p = default (PyStr "") (assoc "project_name" items) ∧
     attr_project_status p = from_db (status_default schema)) ∧
    (∀ row, projects (db c) !! k = Some row →
            attr_project_name p = from_db (project_name row) ∧
            attr_project_status p = from_db (project_status row)).
Proof.
  intros (H & pid & Hpid & Ht & Hk & Hupd). revert H.
  rewrite exec_reconcile. unfold reconcile_effect.
  destruct extracted_data as [| | | | |?|items]; try done.
  cbn [dict_get] in Hpid. simplify_eq. rewrite Ht. cbn [negb].
  destruct (needs_rollback c) eqn:Hnr; [done|]. rewrite Hk.
  unfold project_sponsor, project_responsible_party, project_route_of_admin.
  destruct (projects (db c) !! k) as [row|] eqn:Hrow.
  - destruct Hupd as [->|?]; [|done]. unfold apply_effect.
    destruct (effect _ _ _ _) as [[[res row'] D'] b] eqn:He. intros [= -> <-].
    destruct (effect_ok _ _ _ _ _ _ _ He) as [-> _].
    exists items, (fetched k row), row, row', D'. split_and!; try done.
    by intros ? [= <-].
  - destruct (prep_column project_name_column _) as [n|]; [|done].
    destruct (prep_column project_status_column _) as [st|]; [|done].
    unfold apply_effect.
    destruct (effect _ _ _ _) as [[[res row'] D'] b] eqn:He. intros [= -> <-].
    destruct (effect_ok _ _ _ _ _ _ _ He) as [-> _].
    by eexists items, _, _, row', D'.
Qed.

Lemma lookup_step_result key t items D o D' attr :
  lookup_step key t items D = (inr o, D') →
  supplied_or o attr =
    (if truthy (default PyNone (assoc key items))
     then prep_name t (default PyNone (assoc key items)) else attr) ∧
  (∀ n, o = Some n → (t, n) ∈ D').
Proof.
  intros H. split; [|intros n ->; by eapply lookup_step_stored].
  revert H. unfold lookup_step. destruct (truthy _); [|by intros [= <- _]].
  destruct (prep_name t _) as [m|]; [|done]. by intros [= <- _].
Qed.

(** X18. The three single-valued references follow the rule of the
    relations.  When a record has been reconciled, a truthy value under
    "sponsor_name", "responsible_party" or "route_of_admin" makes the
    project point to the row that get-or-create returns for it, which is
    then in the lookup table; a missing or falsy value (null, an empty
    string) leaves the reference as it was, unset for a new project.  The
    command never clears a reference. *)
Theorem reference_assigned_when_named_kept_otherwise
    update_existing name items k c c' :
  reconciled update_existing name (PyDict items) k c c' →
  let sponsor_name := default PyNone (assoc "sponsor_name" items) in
  let party_name := default PyNone (assoc "responsible_party" items) in
  let route_name := default PyNone (assoc "route_of_admin" items) in
  project_sponsor k (db c') =
    (if truthy sponsor_name then prep_name Sponsor sponsor_name
     else project_sponsor k (db c)) ∧
  project_responsible_party k (db c') =
    (if truthy party_name then prep_name ResponsibleParty party_name
     else project_responsible_party k (db c)) ∧
  project_route_of_admin k (db c') =
    (if truthy route_name then prep_name RouteOfAdmin route_name
     else project_route_of_admin k (db c)) ∧
  (∀ n, truthy sponsor_name = true →
        project_sponsor k (db c') = Some n → (Sponsor, n) ∈ dictionary (db c')) ∧
  (∀ n, truthy party_name = true →
        project_responsible_party k (db c') = Some n →
        (ResponsibleParty, n) ∈ dictionary (db c')) ∧
  (∀ n, truthy route_name = true →
        project_route_of_admin k (db c') = Some n →
        (RouteOfAdmin, n) ∈ dictionary (db c')).
Proof.
  intros Hr sponsor_name party_name route_name.
  subst sponsor_name party_name route_name.
  destruct (reconciled_effect _ _ _ _ _ _ Hr)
    as (items' & p & row0 & row' & D' & [= <-] & He & -> & Es & Ep & Ea & _ & _).
  destruct (effect_ok _ _ _ _ _ _ _ He)
    as (_ & sp & rp & ra & n0 & st & D1 & D2 & D3 & H1 & H2 & H3 & _ & _ & Hs).
  destruct (related_steps_frame _ _ _ _ _ _ _ Hs) as [(_ & _ & Fs & Fp & Fa) _].
  pose proof (related_steps_mono _ _ _ _ _ _ _ Hs) as M4.
  pose proof (lookup_step_mono _ _ _ _ _ _ H2) as M2.
  pose proof (lookup_step_mono _ _ _ _ _ _ H3) as M3.
  destruct (lookup_step_result _ _ _ _ _ _ (attr_sponsor p) H1) as [R1 S1].
  destruct (lookup_step_result _ _ _ _ _ _ (attr_responsible_party p) H2)
    as [R2 S2].
  destruct (lookup_step_result _ _ _ _ _ _ (attr_route_of_admin p) H3)
    as [R3 S3].
  cbn [sponsor responsible_party route_of_admin] in Fs, Fp, Fa.
  unfold project_sponsor at 1 3, project_responsible_party at 1 3,
    project_route_of_admin at 1 3.
  cbn [db projects dictionary]. rewrite lookup_insert_eq.
  rewrite Fs, Fp, Fa, R1, R2, R3, Es, Ep, Ea.
  split_and!; try done.
  - intros n Ht. rewrite Ht. intros Hn. rewrite Ht, Hn in R1.
    apply supplied_or_Some in R1 as [->|[-> ?]].
    + by apply M4, M3, M2, S1.
    + unfold lookup_step in H1. rewrite Ht, Hn in H1.
      done.
  - intros n Ht. rewrite Ht. intros Hn. rewrite Ht, Hn in R2.
    apply supplied_or_Some in R2 as [->|[-> ?]].
    + by apply M4, M3, S2.
    + unfold lookup_step in H2. rewrite Ht, Hn in H2.
      done.
  - intros n Ht. rewrite Ht. intros Hn. rewrite Ht, Hn in R3.
    apply supplied_or_Some in R3 as [->|[-> ?]].
    + by apply M4, S3.
    + unfold lookup_step in H3. rewrite Ht, Hn in H3.
      done.
Qed.

(** X19. The two scalar fields of a reconciled project.  A value given under
    "project_name" or "project_status" is what the column stores, a text as
    it is.  When the key is missing, a project that was stored keeps its
    value; a new project gets the empty name that get-or-create was given as
    default, and the status that the schema defaults to. *)
Theorem scalar_fields_after_reconciliation update_existing name items k c c' :
  reconciled update_existing name (PyDict items) k c c' →
  ∃ row', projects (db c') !! k = Some row' ∧
    (∀ v, assoc "project_name" items = Some v →
          prep_column project_name_column v = Some (project_name row')) ∧
    (∀ v, assoc "project_status" items = Some v →
          prep_column project_status_column v = Some (project_status row')) ∧
    (assoc "project_name" items = None →
     project_name row' =
       match projects (db c) !! k with
       | Some row => project_name row
       | None => Some ""
       end) ∧
    (assoc "project_status" items = None →
     project_status row' =
       match projects (db c) !! k with
       | Some row => project_status row
       | None => status_default schema
       end).
Proof.
  intros Hr.
  destruct (reconciled_effect _ _ _ _ _ _ Hr)
    as (items' & p & row0 & row' & D' & [= <-] & He & -> & _ & _ & _ & Hnew
        & Hold).
  destruct (effect_ok _ _ _ _ _ _ _ He)
    as (_ & sp & rp & ra & n & st & D1 & D2 & D3 & _ & _ & _ & Hn & Hst & Hs).
  destruct (related_steps_frame _ _ _ _ _ _ _ Hs) as [(Fn & Fs & _) _].
  cbn [project_name project_status] in Fn, Fs.
  exists row'. cbn [db projects]. split; [apply lookup_insert_eq|].
  rewrite Fn, Fs. split_and!.
  - intros v Hv. by rewrite Hv in Hn.
  - intros v Hv. by rewrite Hv in Hst.
  - intros Habs. rewrite Habs in Hn. cbn [default] in Hn.
    destruct (projects (db c) !! k) as [row|].
    + destruct (Hold row eq_refl) as [En _]. rewrite En in Hn.
      by apply prep_column_from_db_inv in Hn.
    + destruct (Hnew eq_refl) as [En _]. rewrite En, Habs in Hn.
      by simplify_eq/=.
  - intros Habs. rewrite Habs in Hst. cbn [default] in Hst.
    destruct (projects (db c) !! k) as [row|].
    + destruct (Hold row eq_refl) as [_ Est]. rewrite Est in Hst.
      by apply prep_column_from_db_inv in Hst.
    + destruct (Hnew eq_refl) as [_ Est]. rewrite Est in Hst.
      by apply prep_column_from_db_inv in Hst.
Qed.

(** ** The lines that close a turn *)

Lemma quiet_ret {A} (a : A) : quiet (ret a).
Proof. intros c. constructor. Qed.

Lemma quiet_raise {A} e : quiet (@raise A e).
Proof. intros c. constructor. Qed.

Lemma quiet_lift {A} (r : exn + A) : quiet (lift r).
Proof. destruct r; [apply quiet_raise|apply quiet_ret]. Qed.

Lemma quiet_emit e : closing e = false → quiet (emit e).
Proof. intros H c. by repeat constructor. Qed.

Lemma quiet_execute call : quiet (execute call).
Proof. intros c. by repeat constructor. Qed.

Lemma quiet_bind {A B} (m : M A) (k : A → M B) :
  quiet m → (∀ a, quiet (k a)) → quiet (bind m k).
Proof.
  intros Hm Hk c. specialize (Hm c). unfold bind.
  destruct (m c) as [[[e|a] c1] t1]; [done|].
  specialize (Hk a c1). destruct (k a c1) as [[r c2] t2].
  apply Forall_app. by split.
Qed.

Lemma quiet_modify_db f : quiet (modify_db f).
Proof. intros c. constructor. Qed.

Lemma quiet_for_each {A} (items : list A) body :
  (∀ x, quiet (body x)) → quiet (for_each items body).
Proof.
  intros Hbody. induction items as [|x rest IH]; [apply quiet_ret|].
  apply quiet_bind; [apply Hbody|]. by intros _.
Qed.

Lemma closes_write out sty m :
  closing (Write out sty m) = true → closes (write out sty m).
Proof. intros H c. exists [], (Write out sty m). by repeat split. Qed.

Lemma closes_bind {A B} (m : M A) (k : A → M B) :
  quiet m → (∀ a, closes (k a)) → closes (bind m k).
Proof.
  intros Hm Hk c. specialize (Hm c). unfold bind.
  destruct (m c) as [[[e|a] c1] t1]; [done|].
  specialize (Hk a c1). destruct (k a c1) as [[[e|b] c2] t2]; simpl in *.
  - apply Forall_app. by split.
  - destruct Hk as (t0 & e & -> & He & Ht0). exists (t1 ++ t0), e.
    split_and!; [by rewrite app_assoc|done|]. apply Forall_app. by split.
Qed.

Lemma quiet_get_or_create t name : quiet (get_or_create t name).
Proof.
  apply quiet_bind; [apply quiet_execute|]. intros _.
  destruct (prep_name t name); [|apply quiet_raise].
  apply quiet_bind; [apply quiet_modify_db|]. intros _. apply quiet_ret.
Qed.

Lemma quiet_Project_get_or_create project_id_val default_name :
  quiet (Project_get_or_create project_id_val default_name).
Proof.
  apply quiet_bind; [apply quiet_execute|]. intros _.
  destruct (prep_id project_id_val) as [k|]; [|apply quiet_raise].
  apply quiet_bind; [intros c; constructor|]. intros store.
  destruct (projects store !! k); [apply quiet_ret|].
  destruct (prep_column project_name_column _); [|apply quiet_raise].
  destruct (prep_column project_status_column _); [|apply quiet_raise].
  apply quiet_bind; [intros c; constructor|]. intros _. apply quiet_ret.
Qed.

Lemma quiet_save project : quiet (save project).
Proof.
  apply quiet_bind; [apply quiet_execute|]. intros _.
  destruct (prep_column project_name_column _).
  - destruct (prep_column project_status_column _);
      [apply quiet_modify_db|].
    apply quiet_bind; [intros c; constructor|]. intros _. apply quiet_raise.
  - apply quiet_bind; [intros c; constructor|]. intros _. apply quiet_raise.
Qed.

Lemma quiet_assign_lookup key t setter extracted_data project :
  quiet (assign_lookup key t setter extracted_data project).
Proof.
  apply quiet_bind; [apply quiet_lift|]. intros name.
  destruct (truthy name); [|apply quiet_ret].
  apply quiet_bind; [apply quiet_get_or_create|]. intros row. apply quiet_ret.
Qed.

Lemma quiet_replace_related r extracted_data project :
  quiet (replace_related r extracted_data project).
Proof.
  apply quiet_bind; [apply quiet_lift|]. intros items.
  destruct (truthy items); [|apply quiet_ret].
  apply quiet_bind.
  { apply quiet_bind; [apply quiet_execute|]. intros _. apply quiet_modify_db. }
  intros _. apply quiet_bind; [apply quiet_lift|]. intros item_names.
  apply quiet_for_each. intros item_name.
  apply quiet_bind; [apply quiet_get_or_create|]. intros item.
  apply quiet_bind; [apply quiet_execute|]. intros _. apply quiet_modify_db.
Qed.

Lemma closes_apply_extraction extracted_data project :
  closes (apply_extraction extracted_data project).
Proof.
  unfold apply_extraction.
  apply closes_bind; [apply quiet_lift|]. intros name.
  apply closes_bind; [apply quiet_lift|]. intros status.
  apply closes_bind; [apply quiet_assign_lookup|]. intros p1.
  apply closes_bind; [apply quiet_assign_lookup|]. intros p2.
  apply closes_bind; [apply quiet_assign_lookup|]. intros p3.
  apply closes_bind; [apply quiet_save|]. intros _.
  do 5 (apply closes_bind; [apply quiet_replace_related|]; intros _).
  by apply closes_write.
Qed.

Lemma closes_reconcile update_existing name extracted_data :
  closes (reconcile update_existing name extracted_data).
Proof.
  unfold reconcile.
  apply closes_bind; [apply quiet_lift|]. intros project_id_val.
  destruct (negb (truthy project_id_val)); [by apply closes_write|].
  apply closes_bind; [apply quiet_lift|]. intros default_name.
  apply closes_bind; [apply quiet_Project_get_or_create|]. intros found.
  destruct found.2.
  { apply closes_bind; [by apply quiet_emit|]. intros _.
    apply closes_apply_extraction. }
  destruct update_existing; [|by apply closes_write].
  apply closes_bind; [by apply quiet_emit|]. intros _.
  apply closes_apply_extraction.
Qed.

Lemma read_trace_quiet f : Forall (λ e, closing e = false) (read_trace f).
Proof.
  unfold read_trace.
  destruct (endswith _ ".docx"); [destruct (parsed f); by repeat constructor|].
  destruct (endswith _ ".pdf"); [|constructor].
  destruct (parsed f); by repeat constructor.
Qed.

Lemma extraction_trace_quiet answer :
  Forall (λ e, closing e = false) (extraction_trace answer).
Proof.
  destruct answer as [|response_data]; [by repeat constructor|]. simpl.
  destruct (dict_get _ _ _) as [e|[| | | |s| |]]; try constructor.
  destruct (json_loads s); by repeat constructor.
Qed.

(** X20. Every document that is sent to the model service is accounted for.
    When its turn of the loop returns, the last line the turn wrote is one of
    the five that close a turn (extraction failed, skipped for want of an
    identifier, skipped as existing, successfully processed, database error),
    and no line before it is. *)
Theorem prompted_document_gets_one_closing_line update_existing f c c' t :
  truthy (raw_text f) = true →
  process_file update_existing f c = (inr tt, c', t) →
  ∃ t0 e, t = t0 ++ [e] ∧ closing e = true ∧
          Forall (λ x, closing x = false) t0.
Proof.
  intros Hraw. rewrite process_file_run, Hraw.
  pose proof (read_trace_quiet f) as Hread.
  pose proof (extraction_trace_quiet (reply f)) as Hext.
  destruct (extraction (reply f)) as [e|extracted_data]; [done|].
  destruct (truthy extracted_data).
  - pose proof (closes_reconcile update_existing (filename f) extracted_data c)
      as Hrec.
    destruct (reconcile _ _ _ c) as [[[e|[]] c1] t1]; simpl in Hrec;
      intros [= <- <-].
    + eexists (read_trace f ++ Write stdout None Extracting ::
               extraction_trace (reply f) ++ t1), _.
      split_and!; [by rewrite <- !app_assoc, <- app_comm_cons, <- app_assoc|done|].
      apply Forall_app. split; [done|]. constructor; [done|].
      apply Forall_app. by split.
    + destruct Hrec as (t0 & e & -> & He & Ht0).
      exists (read_trace f ++ Write stdout None Extracting ::
              extraction_trace (reply f) ++ t0), e.
      split_and!; [by rewrite <- !app_assoc, <- app_comm_cons, <- app_assoc|done|].
      apply Forall_app. split; [done|]. constructor; [done|].
      apply Forall_app. by split.
  - intros [= <- <-].
    eexists (read_trace f ++ Write stdout None Extracting ::
             extraction_trace (reply f)), _.
    split_and!; [by rewrite <- !app_assoc, <- app_comm_cons|done|].
    apply Forall_app. split; [done|]. by constructor.
Qed.

(** X21. The line "Successfully processed and saved data" is written only
    at the end of a reconciliation that went through: when the turn of a
    document wrote it, the extraction returned a record and no statement of
    the [try] raised.  A document whose reconciliation was cut short is
    never reported as processed. *)
Theorem success_line_means_no_exception update_existing f c c' t project_id :
  process_file update_existing f c = (inr tt, c', t) →
  Write stdout (Some SUCCESS) (SuccessfullyProcessed project_id) ∈ t →
  ∃ extracted_data,
    extraction (reply f) = inr extracted_data ∧
    exec (reconcile update_existing (filename f) extracted_data) c =
      (inr tt, c').
Proof.
  rewrite process_file_run.
  pose proof (read_trace_quiet f) as Hread.
  pose proof (extraction_trace_quiet (reply f)) as Hext.
  assert (Hno : ∀ t0, Forall (λ x, closing x = false) t0 →
    Write stdout (Some SUCCESS) (SuccessfullyProcessed project_id) ∉ t0).
  { intros t0 Ht0 Hin. rewrite Forall_forall in Ht0. by apply Ht0 in Hin. }
  destruct (truthy (raw_text f)).
  2:{ intros [= <- <-] Hin. by apply Hno in Hin. }
  destruct (extraction (reply f)) as [e|extracted_data]; [done|].
  destruct (truthy extracted_data).
  - pose proof (closes_reconcile update_existing (filename f) extracted_data c)
      as Hrec.
    destruct (reconcile _ _ _ c) as [[[e|[]] c1] t1] eqn:Hr; simpl in Hrec;
      intros [= <- <-] Hin.
    + exfalso. revert Hin. rewrite elem_of_app, elem_of_cons, !elem_of_app.
      rewrite list_elem_of_singleton.
      intros [H|[H|[H|[H|H]]]]; try done; revert H; by apply Hno.
    + exists extracted_data. split; [done|]. unfold exec. by rewrite Hr.
  - intros [= <- <-] Hin. exfalso. revert Hin.
    rewrite elem_of_app, elem_of_cons, elem_of_app, list_elem_of_singleton.
    intros [H|[H|[H|H]]]; try done; revert H; by apply Hno.
Qed.

(** * The claims on relations, batches and reports *)

(** ** Items that the store refuses *)

Lemma link_app t pre rest names D :
  link t (pre ++ rest) names D =
  match link t pre names D with
  | (inr _, L, D1) => link t rest L D1
  | (inl e, L, D1) => (inl e, L, D1)
  end.
Proof.
  revert names D. induction pre as [|v pre IH]; intros names D; [done|].
  change ((v :: pre) ++ rest) with (v :: (pre ++ rest)). cbn [link].
  destruct (prep_name t v) as [n|]; [apply IH|done].
Qed.

Lemma link_dictionary t item_names names D L D' :
  link t item_names names D = (inr tt, L, D') →
  ∀ y, y ∈ D' ↔
       y ∈ D ∨ ∃ v n, v ∈ item_names ∧ prep_name t v = Some n ∧ y = (t, n).
Proof.
  revert names D. induction item_names as [|v rest IH]; intros names D H y;
    simpl in H.
  - simplify_eq. split; [by left|]. intros [?|(v & n & Hv & _)]; [done|].
    by apply elem_of_nil in Hv.
  - destruct (prep_name t v) as [m|] eqn:Hm; [|by simplify_eq].
    rewrite (IH _ _ H y), elem_of_dict_add. split.
    + intros [[?| ->]|(w & n & Hw & Hn & ->)]; [by left| |].
      * right. exists v, m. split_and!; [apply elem_of_cons; by left|done|done].
      * right. exists w, n. split_and!; [apply elem_of_cons; by right|done|done].
    + intros [?|(w & n & Hw & Hn & ->)]; [by left; left|].
      apply elem_of_cons in Hw as [-> |Hw].
      * left. right. congruence.
      * right. by exists w, n.
Qed.


(** C4, amended. The value under the key of a many-to-many relation is used
    whenever it is truthy, whatever its shape.  A falsy or missing value
    (null, false, 0, an empty string, list or object) makes no ORM call and
    changes nothing.  A truthy value first clears the relation.  If Python
    cannot iterate it (a number, true) the block raises there and leaves the
    relation empty.  Otherwise the items the iteration yields (the elements
    of a list, of any type; the code points of a string; the keys of an
    object) are passed to get-or-create and linked one after the other, none
    is dropped, up to the first item the store refuses: there the block
    raises, the relation holds exactly the rows of the items before it, and
    no lookup row is created for that item or any item after it.  When the
    store takes every item, the relation holds exactly the rows returned and
    the lookup table has gained exactly those rows. *)
Theorem truthy_value_is_linked_until_refused r items p c row :
  needs_rollback c = false →
  projects (db c) !! pk p = Some row →
  let v := relation_value items r in
  let t := related_model r in
  (truthy v = false →
   replace_related r (PyDict items) p c = (inr tt, c, [])) ∧
  (truthy v = true → ∀ e, py_iter v = inl e →
   ∃ c', exec (replace_related r (PyDict items) p) c = (inl e, c') ∧
         project_related (pk p) r (db c') = [] ∧
         dictionary (db c') = dictionary (db c)) ∧
  (truthy v = true → ∀ xs, py_iter v = inr xs →
   (∀ x, x ∈ xs → is_Some (prep_name t x)) →
   ∃ c', exec (replace_related r (PyDict items) p) c = (inr tt, c') ∧
         holds_rows (pk p) r xs (db c') ∧
         (∀ n, n ∈ project_related (pk p) r (db c') →
               (t, n) ∈ dictionary (db c')) ∧
         (∀ y, y ∈ dictionary (db c') ↔
               y ∈ dictionary (db c) ∨
               ∃ x n, x ∈ xs ∧ prep_name t x = Some n ∧ y = (t, n))) ∧
  (truthy v = true → ∀ pre x post, py_iter v = inr (pre ++ x :: post) →
   (∀ y, y ∈ pre → is_Some (prep_name t y)) →
   prep_name t x = None →
   ∃ c', exec (replace_related r (PyDict items) p) c =
           (inl DatabaseError, c') ∧
         holds_rows (pk p) r pre (db c') ∧
         (∀ y, y ∈ dictionary (db c') ↔
               y ∈ dictionary (db c) ∨
               ∃ x' n, x' ∈ pre ∧ prep_name t x' = Some n ∧ y = (t, n))).
Proof.
  intros Hnr Hrow v t. subst v t. unfold relation_value, holds_rows.
  destruct c as [[P D] b]. simpl in Hnr, Hrow. subst b.
  split_and!.
  - intros Hv. unfold replace_related, bind. simpl. by rewrite Hv.
  - intros Hv e He. rewrite <- (insert_id P _ _ Hrow), exec_replace_related.
    unfold related_step. rewrite Hv, He.
    eexists. split; [done|]. unfold project_related. simpl.
    by rewrite lookup_insert_eq, related_set_related.
  - intros Hv xs Hxs Hall.
    rewrite <- (insert_id P _ _ Hrow), exec_replace_related.
    unfold related_step. rewrite Hv, Hxs.
    destruct (link _ _ _ _) as [[res names] D1] eqn:Hl.
    assert (res = inr tt) as -> by by apply (link_outcome _ _ _ _ _ _ _ Hl).
    eexists. split; [done|]. unfold project_related. cbn [db projects dictionary].
    rewrite lookup_insert_eq, related_set_related. split_and!.
    + intros n. rewrite (link_names _ _ _ _ _ _ Hl n). split; [|by right].
      intros [Hn|?]; [|done]. by apply elem_of_nil in Hn.
    + intros n Hn.
      destruct (link_stored _ _ _ _ _ _ _ Hl n Hn) as [Hn'|?]; [|done].
      by apply elem_of_nil in Hn'.
    + apply (link_dictionary _ _ _ _ _ _ Hl).
  - intros Hv pre x post Hxs Hall Hx.
    rewrite <- (insert_id P _ _ Hrow), exec_replace_related.
    unfold related_step. rewrite Hv, Hxs, link_app.
    destruct (link _ pre _ _) as [[res names] D1] eqn:Hl.
    assert (res = inr tt) as -> by by apply (link_outcome _ _ _ _ _ _ _ Hl).
    cbn [link]. rewrite Hx.
    eexists. split; [done|]. unfold project_related. cbn [db projects dictionary].
    rewrite lookup_insert_eq, related_set_related. split.
    + intros n. rewrite (link_names _ _ _ _ _ _ Hl n). split; [|by right].
      intros [Hn|?]; [|done]. by apply elem_of_nil in Hn.
    + apply (link_dictionary _ _ _ _ _ _ Hl).
Qed.

(** ** The five relations, one after the other *)











(** ** A reconciliation that raises, and what the run commits *)




(** ** An existing project without the update flag *)

(** C6, amended. With update disabled, a document whose identifier names a
    project that already exists leaves the connection as it was: no project
    field, reference, related set or lookup row is created or changed, and
    the only ORM call is the lookup of the project.  It is reported as
    skipped (the warning "Skipping existing project") as long as the
    transaction of the run is usable.  Once an earlier document of the run
    has had a save refused, the transaction is marked for rollback, the
    lookup itself raises, and the document is reported as a database error
    ([TransactionManagementError]) and not as skipped. *)
Theorem existing_project_without_update_changes_nothing f c items k row :
  truthy (raw_text f) = true →
  extraction (reply f) = inr (PyDict items) →
  truthy (default PyNone (assoc "project_id" items)) = true →
  prep_id (default PyNone (assoc "project_id" items)) = Some k →
  projects (db c) !! k = Some row →
  process_file false f c =
  (inr tt, c,
   read_trace f ++ Write stdout None Extracting ::
   extraction_trace (reply f) ++
   [Orm ProjectGetOrCreate;
    if needs_rollback c
    then Write stderr (Some ERROR)
           (DatabaseErrorFor (filename f) TransactionManagementError)
    else Write stdout (Some WARNING) (SkippingExisting (PyStr k))]).
Proof.
  intros Hraw Hx Ht Hk Hrow.
  rewrite process_file_run, Hraw, Hx, (truthy_dict_with_identifier _ Ht).
  destruct (needs_rollback c) eqn:Hnr.
  - by rewrite (reconcile_marked _ _ _ _ Hnr Ht).
  - by rewrite (reconcile_existing_no_update _ _ _ _ _ Ht Hk Hrow Hnr).
Qed.

(** ** What a run writes *)

Lemma process_file_turn update_existing f c c' t :
  process_file update_existing f c = (inr tt, c', t) → turn_reported f t.
Proof.
  unfold turn_reported. rewrite process_file_run.
  pose proof (read_trace_quiet f) as Hread.
  pose proof (extraction_trace_quiet (reply f)) as Hext.
  destruct (truthy (raw_text f)); [|by intros [= <- <-]].
  destruct (extraction (reply f)) as [e|extracted_data]; [done|].
  destruct (truthy extracted_data).
  - pose proof (closes_reconcile update_existing (filename f) extracted_data c)
      as Hrec.
    destruct (reconcile _ _ _ c) as [[[e|[]] c1] t1]; simpl in Hrec;
      intros [= <- <-].
    + eexists (read_trace f ++ Write stdout None Extracting ::
               extraction_trace (reply f) ++ t1), _.
      split_and!; [by rewrite <- !app_assoc, <- app_comm_cons, <- app_assoc|done|].
      apply Forall_app. split; [done|]. constructor; [done|].
      apply Forall_app. by split.
    + destruct Hrec as (t0 & e & -> & He & Ht0).
      exists (read_trace f ++ Write stdout None Extracting ::
              extraction_trace (reply f) ++ t0), e.
      split_and!; [by rewrite <- !app_assoc, <- app_comm_cons, <- app_assoc|done|].
      apply Forall_app. split; [done|]. constructor; [done|].
      apply Forall_app. by split.
  - intros [= <- <-].
    eexists (read_trace f ++ Write stdout None Extracting ::
             extraction_trace (reply f)), _.
    split_and!; [by rewrite <- !app_assoc, <- app_comm_cons|done|].
    apply Forall_app. split; [done|]. by constructor.
Qed.

Lemma for_each_turns update_existing entries c c' t :
  for_each entries (process_file update_existing) c = (inr tt, c', t) →
  ∃ turns, t = concat turns ∧ Forall2 turn_reported entries turns.
Proof.
  revert c t. induction entries as [|f rest IH]; intros c t.
  { intros [= <- <-]. exists []. split; [done|constructor]. }
  cbn [for_each]. unfold bind.
  destruct (process_file update_existing f c) as [[[e|[]] c1] t1] eqn:Hp;
    [done|].
  destruct (for_each rest _ c1) as [[res c2] t2] eqn:Hrest.
  intros [= -> <- <-].
  destruct (IH _ _ Hrest) as (turns & -> & Hturns).
  exists (t1 :: turns). split; [done|]. constructor; [|done].
  by eapply process_file_turn.
Qed.

Lemma closing_lines_app t1 t2 :
  closing_lines (t1 ++ t2) = closing_lines t1 ++ closing_lines t2.
Proof. unfold closing_lines. apply filter_app. Qed.

Lemma closing_lines_quiet t :
  Forall (λ x, closing x = false) t → closing_lines t = [].
Proof.
  induction 1 as [|x t Hx _ IH]; [done|]. unfold closing_lines.
  rewrite filter_cons_False; [done|]. by rewrite Hx.
Qed.

Lemma closing_lines_turns entries turns :
  Forall2 turn_reported entries turns →
  length (closing_lines (concat turns)) = length (with_text entries).
Proof.
  induction 1 as [|f turn entries turns Hturn _ IH]; [done|].
  cbn [concat]. rewrite closing_lines_app, length_app, IH.
  unfold with_text, turn_reported in *.
  destruct (truthy (raw_text f)) eqn:Ht.
  - rewrite filter_cons_True by done.
    destruct Hturn as (t0 & e & -> & He & Ht0).
    rewrite closing_lines_app, (closing_lines_quiet _ Ht0).
    unfold closing_lines. by rewrite filter_cons_True by done.
  - rewrite filter_cons_False by (by rewrite Ht). subst turn.
    by rewrite (closing_lines_quiet _ (read_trace_quiet f)).
Qed.

(** C9, amended. The run keeps no counts.  A run over an existing directory
    that returns writes the starting line, then what the turns of the
    entries write, in the order of the listing, then the fixed line
    "Processing complete.", which carries no counts.  The turn of an entry
    that yields text ends with one closing line (extraction failed, skipped
    for want of an identifier, skipped as existing, successfully processed,
    or database error) and writes no other; the turn of an entry that yields
    no text (no known extension, an unreadable or empty document) writes
    what its reader writes and no outcome at all.  So the output holds
    exactly as many closing lines as there are entries that yield text, and
    nothing that tells how many entries were ignored. *)
Theorem run_reports_each_document_and_no_counts
    directory_path entries update_existing s0 s t :
  handle directory_path (Some entries) update_existing s0 = (inr tt, s, t) →
  ∃ turns,
    t = Write stdout (Some SUCCESS) (Starting directory_path) ::
        concat turns ++ [Write stdout (Some SUCCESS) ProcessingComplete] ∧
    Forall2 turn_reported entries turns ∧
    length (closing_lines t) = length (with_text entries) ∧
    last t = Some (Write stdout (Some SUCCESS) ProcessingComplete).
Proof.
  rewrite handle_run.
  destruct (for_each entries _ _) as [[[e|[]] c] t_loop] eqn:Hloop; [done|].
  intros [= _ <-].
  destruct (for_each_turns _ _ _ _ _ Hloop) as (turns & -> & Hturns).
  exists turns. split_and!; [done|done| |].
  - change (Write stdout (Some SUCCESS) (Starting directory_path) ::
            concat turns ++ [Write stdout (Some SUCCESS) ProcessingComplete])
      with ([Write stdout (Some SUCCESS) (Starting directory_path)] ++
            concat turns ++ [Write stdout (Some SUCCESS) ProcessingComplete]).
    rewrite !closing_lines_app, !length_app.
    rewrite (closing_lines_turns _ _ Hturns). simpl. lia.
  - change (Write stdout (Some SUCCESS) (Starting directory_path) ::
            concat turns ++ [Write stdout (Some SUCCESS) ProcessingComplete])
      with ((Write stdout (Some SUCCESS) (Starting directory_path) ::
             concat turns) ++
            [Write stdout (Some SUCCESS) ProcessingComplete]).
    apply last_snoc.
Qed.

End Command.



(** * The claims on sample data *)


(** C4 as stated fails: a text under "deliverables" is not treated as
    absent.  Its characters become the deliverables of the project and two
    lookup rows are created.  A number is not treated as absent either: the
    relation is cleared before the iteration raises. *)
Lemma text_value_is_iterated :
  let after_text :=
    exec (reconcile text_only true "proj1.docx" record_text)
      (mkConn store_AB false) in
  let after_number :=
    exec (reconcile text_only true "proj1.docx" record_number)
      (mkConn store_AB false) in
  project_related "P1" deliverables store_AB = ["A"; "B"] ∧
  after_text.1 = inr tt ∧
  project_related "P1" deliverables (db after_text.2) = ["a"; "b"] ∧
  dictionary (db after_text.2) =
    [(Deliverable, "A"); (Deliverable, "B"); (Deliverable, "a");
     (Deliverable, "b")] ∧
  after_number.1 = inl TypeError ∧
  project_related "P1" deliverables (db after_number.2) = [].
Proof. vm_compute. repeat split. Qed.

(** C5 as stated fails: the empty mapping is a mapping with no identifier,
    and it is reported as a failed extraction, with an error, not as
    skipped. *)
Lemma empty_mapping_is_reported_failed :
  extraction sample_loads (reply file_empty_object) = inr (PyDict []) ∧
  process_file text_only sample_loads false file_empty_object
    (mkConn empty_store false) =
  (inr tt, mkConn empty_store false,
   [Write stdout None (ProcessingDocx "empty.docx");
    Write stdout None Extracting;
    Write stderr (Some ERROR) (FailedToExtract "empty.docx")]).
Proof. split; reflexivity. Qed.

Lemma record_without_identifier_witness :
  let c := mkConn store_AB false in
  let t := read_trace file_no_id ++ Write stdout None Extracting ::
           extraction_trace sample_loads (reply file_no_id) ++
           [Write stderr (Some WARNING) (SkippingNoProjectId (filename file_no_id))] in
  process_file text_only sample_loads true file_no_id c = (inr tt, c, t) ∧
  orm_calls t = [] ∧
  count_reported failed t = 0.
Proof.
  intros c.
  apply (record_without_identifier_is_skipped text_only sample_loads true
           file_no_id c
           [("project_name", PyStr "Trial X"); ("project_id", PyNone)]).
  - reflexivity.
  - reflexivity.
  - discriminate.
  - reflexivity.
Defined.



(** C9 as stated fails: a run that created a project and a run over an empty
    directory end with the same line, so that line holds no counts; and a
    directory with one entry that is not a document produces exactly the
    output of the empty directory, so nothing counts it as ignored. *)
Lemma final_line_carries_no_counts :
  let empty_run :=
    (handle text_only sample_loads "docs" (Some []) false empty_store).2 in
  let one_created :=
    (handle text_only sample_loads "docs" (Some [file_acme]) false empty_store).2 in
  let one_ignored :=
    (handle text_only sample_loads "docs" (Some [file_notes]) false empty_store).2 in
  count_reported created empty_run = 0 ∧
  count_reported created one_created = 1 ∧
  last one_created = last empty_run ∧
  last empty_run = Some (Write stdout (Some SUCCESS) ProcessingComplete) ∧
  one_ignored = empty_run.
Proof. vm_compute. repeat split. Qed.

Lemma empty_extraction_witness :
  let c := mkConn store_AB false in
  let t := read_trace file_no_response ++
           [Write stdout None Extracting;
            Write stderr (Some ERROR) (FailedToExtract (filename file_no_response))] in
  process_file text_only sample_loads true file_no_response c = (inr tt, c, t) ∧
  orm_calls t = [] ∧
  count_reported skipped t = 0.
Proof.
  intros c.
  apply (empty_extraction_is_a_failure text_only sample_loads true
           file_no_response c [("done", PyBool true)]).
  - reflexivity.
  - reflexivity.
  - left. split; reflexivity.
Defined.
(** * Further properties on sample data *)

Lemma extension_decides_reader_witness :
  let c := mkConn empty_store false in
  (lower ".Docx" = ".docx" →
   read_text file_capitals c =
   (write stdout None (ProcessingDocx (filename file_capitals)) ;;
    extract_text_from_docx file_capitals) c) ∧
  (lower ".Docx" = ".pdf" →
   read_text file_capitals c =
   (write stdout None (ProcessingPdf (filename file_capitals)) ;;
    extract_text_from_pdf file_capitals) c).
Proof.
  intros c. apply (extension_decides_reader file_capitals "REPORT" ".Docx" c).
  reflexivity.
Defined.

Lemma failed_request_witness :
  let c := mkConn store_AB false in
  let t := read_trace file_bad_json ++
           [Write stdout None Extracting;
            Print (JsonDecodeError "Sure, here is the JSON");
            Write stderr (Some ERROR) (FailedToExtract (filename file_bad_json))] in
  process_file text_only more_loads true file_bad_json c = (inr tt, c, t) ∧
  orm_calls t = [].
Proof.
  intros c.
  apply (failed_request_is_reported text_only more_loads true file_bad_json c
           (JsonDecodeError "Sure, here is the JSON")).
  - reflexivity.
  - right. exists [("response", PyStr "Sure, here is the JSON")],
      "Sure, here is the JSON".
    repeat split; reflexivity.
Defined.

Lemma extraction_that_is_no_object_witness :
  let c := mkConn store_AB false in
  let t := read_trace file_array_payload ++ Write stdout None Extracting ::
           extraction_trace more_loads (reply file_array_payload) ++
           [Write stderr (Some ERROR)
              (DatabaseErrorFor (filename file_array_payload) AttributeError)] in
  process_file text_only more_loads true file_array_payload c = (inr tt, c, t) ∧
  orm_calls t = [].
Proof.
  intros c.
  apply (extraction_that_is_no_object_is_an_error text_only more_loads true
           file_array_payload c (PyList [PyInt 1])).
  - reflexivity.
  - vm_compute. reflexivity.
  - reflexivity.
  - intros items. discriminate.
Defined.

Lemma document_after_refused_save_witness :
  let c := mkConn store_AB true in
  process_file text_only sample_loads true file_acme c =
  (inr tt, c,
   read_trace file_acme ++ Write stdout None Extracting ::
   extraction_trace sample_loads (reply file_acme) ++
   [Orm ProjectGetOrCreate;
    Write stderr (Some ERROR)
      (DatabaseErrorFor (filename file_acme) TransactionManagementError)]).
Proof.
  intros c.
  apply (document_after_refused_save_is_refused text_only sample_loads true
           file_acme c
           [("project_id", PyStr "P1"); ("sponsor_name", PyStr "Acme");
            ("ingredients", PyList [PyStr "Compound A"])]).
  - reflexivity.
  - reflexivity.
  - vm_compute. reflexivity.
  - reflexivity.
Defined.

Lemma update_flag_witness :
  let items := [("project_id", PyStr "P2"); ("sponsor_name", PyStr "ACME")] in
  let c := mkConn store_AB false in
  reconcile text_only true "acme-upper.DOCX" (PyDict items) c =
  reconcile text_only false "acme-upper.DOCX" (PyDict items) c.
Proof.
  intros items c.
  apply (update_flag_only_matters_for_existing text_only "acme-upper.DOCX"
           items c).
  intros k Hk. vm_compute in Hk. injection Hk as <-. vm_compute. reflexivity.
Defined.

Lemma directory_without_text_witness :
  let entries := [file_notes; file_blank_pdf] in
  let t := Write stdout (Some SUCCESS) (Starting "docs") ::
           concat (read_trace <$> entries) ++
           [Write stdout (Some SUCCESS) ProcessingComplete] in
  handle text_only sample_loads "docs" (Some entries) true store_AB =
    (inr tt, store_AB, t) ∧
  orm_calls t = [] ∧
  Write stdout None Extracting ∉ t.
Proof.
  intros entries.
  apply (directory_without_text_changes_nothing text_only sample_loads "docs"
           entries true store_AB).
  repeat constructor.
Defined.

Lemma raising_extraction_witness :
  (handle text_only sample_loads "docs"
     (Some ([file_acme] ++ file_list_reply :: [file_renamed])) false
     empty_store).1 =
  (inl AttributeError, empty_store).
Proof.
  apply (raising_extraction_aborts_the_run text_only sample_loads "docs"
           [file_acme] file_list_reply [file_renamed] false empty_store
           AttributeError).
  - constructor; [|constructor]. intros _. eexists. vm_compute. reflexivity.
  - reflexivity.
  - reflexivity.
Defined.

Lemma refused_save_witness :
  (handle text_only more_loads "docs"
     (Some ([file_acme; file_null_status] ++ [file_renamed])) false
     empty_store).1.2 = empty_store.
Proof.
  apply (refused_save_undoes_the_batch text_only more_loads "docs"
           [file_acme; file_null_status] [file_renamed] false empty_store
           (exec (for_each [file_acme; file_null_status]
                    (process_file text_only more_loads false))
              (mkConn empty_store false)).2).
  - vm_compute. reflexivity.
  - vm_compute. reflexivity.
Defined.

Lemma without_update_witness :
  projects
    (handle text_only sample_loads "docs" (Some [file_renamed; file_acme_upper])
       false store_AB).1.2 !! "P1" =
  Some (a_row "Trial X" "Active" ["A"; "B"]).
Proof.
  apply (without_update_stored_projects_stay text_only sample_loads "docs"
           (Some [file_renamed; file_acme_upper]) store_AB "P1"
           (a_row "Trial X" "Active" ["A"; "B"])).
  vm_compute. reflexivity.
Defined.

Lemma store_AB_resolved : references_resolve store_AB.
Proof.
  intros k row Hk. unfold store_AB in Hk. cbn [projects] in Hk.
  apply lookup_singleton_Some in Hk as [<- <-].
  repeat split; try discriminate.
  intros r n. destruct r; cbn [related a_row deliverables_set
    therapeutic_areas_set ingredient_categories_set ingredients_set
    demographics_set related_model store_AB dictionary];
    try by intros ?%elem_of_nil.
  rewrite !elem_of_cons. intros [->|[->|?%elem_of_nil]]; [by left|by right; left|done].
Qed.

Lemma references_resolved_witness :
  references_resolve
    (handle text_only sample_loads "docs" (Some [file_renamed; file_acme_upper])
       true store_AB).1.2.
Proof.
  apply (run_keeps_references_resolved text_only sample_loads "docs"
           (Some [file_renamed; file_acme_upper]) true store_AB).
  apply store_AB_resolved.
Defined.

Lemma reference_assigned_witness :
  let c := mkConn store_AB false in
  let c' := (exec (reconcile text_only false "full.docx" (PyDict items_full)) c).2 in
  let sponsor_name := default PyNone (assoc "sponsor_name" items_full) in
  let party_name := default PyNone (assoc "responsible_party" items_full) in
  let route_name := default PyNone (assoc "route_of_admin" items_full) in
  project_sponsor "P7" (db c') =
    (if truthy sponsor_name then prep_name text_only Sponsor sponsor_name
     else project_sponsor "P7" (db c)) ∧
  project_responsible_party "P7" (db c') =
    (if truthy party_name then prep_name text_only ResponsibleParty party_name
     else project_responsible_party "P7" (db c)) ∧
  project_route_of_admin "P7" (db c') =
    (if truthy route_name then prep_name text_only RouteOfAdmin route_name
     else project_route_of_admin "P7" (db c)) ∧
  (∀ n, truthy sponsor_name = true →
        project_sponsor "P7" (db c') = Some n →
        (Sponsor, n) ∈ dictionary (db c')) ∧
  (∀ n, truthy party_name = true →
        project_responsible_party "P7" (db c') = Some n →
        (ResponsibleParty, n) ∈ dictionary (db c')) ∧
  (∀ n, truthy route_name = true →
        project_route_of_admin "P7" (db c') = Some n →
        (RouteOfAdmin, n) ∈ dictionary (db c')).
Proof.
  intros c c'.
  apply (reference_assigned_when_named_kept_otherwise text_only false
           "full.docx" items_full "P7" c c').
  split; [vm_compute; reflexivity|].
  exists (PyStr "P7"). repeat split; try reflexivity. right.
  vm_compute. reflexivity.
Defined.

Lemma scalar_fields_witness :
  let c := mkConn store_AB false in
  let c' := (exec (reconcile text_only true "proj1-v2.docx"
                     (PyDict items_renamed)) c).2 in
  ∃ row', projects (db c') !! "P1" = Some row' ∧
    (∀ v, assoc "project_name" items_renamed = Some v →
          prep_column text_only project_name_column v =
          Some (project_name row')) ∧
    (∀ v, assoc "project_status" items_renamed = Some v →
          prep_column text_only project_status_column v =
          Some (project_status row')) ∧
    (assoc "project_name" items_renamed = None →
     project_name row' =
       match projects (db c) !! "P1" with
       | Some row => project_name row
       | None => Some ""
       end) ∧
    (assoc "project_status" items_renamed = None →
     project_status row' =
       match projects (db c) !! "P1" with
       | Some row => project_status row
       | None => status_default text_only
       end).
Proof.
  intros c c'.
  apply (scalar_fields_after_reconciliation text_only true "proj1-v2.docx"
           items_renamed "P1" c c').
  split; [vm_compute; reflexivity|].
  exists (PyStr "P1"). repeat split; try reflexivity. left. reflexivity.
Defined.

Lemma closing_line_witness :
  let r := process_file text_only sample_loads false file_acme
             (mkConn empty_store false) in
  ∃ t0 e, r.2 = t0 ++ [e] ∧ closing e = true ∧
          Forall (λ x, closing x = false) t0.
Proof.
  intros r.
  apply (prompted_document_gets_one_closing_line text_only sample_loads false
           file_acme (mkConn empty_store false) r.1.2 r.2).
  - reflexivity.
  - vm_compute. reflexivity.
Defined.

Lemma success_line_witness :
  let c := mkConn empty_store false in
  let r := process_file text_only sample_loads false file_acme c in
  ∃ extracted_data,
    extraction sample_loads (reply file_acme) = inr extracted_data ∧
    exec (reconcile text_only false (filename file_acme) extracted_data) c =
      (inr tt, r.1.2).
Proof.
  intros c r.
  apply (success_line_means_no_exception text_only sample_loads false
           file_acme c r.1.2 r.2 (PyStr "P1")).
  - vm_compute. reflexivity.
  - vm_compute. repeat constructor.
Defined.
(** * Relations, batches and reports on sample data *)




(** The run of the witness above leaves the deliverables A and B of P1 as
    they were and makes X its only ingredient. *)
Lemma relations_in_order_sample :
  let c' := (exec (reconcile text_only true "proj1.docx"
                     (PyDict items_ingredient)) (mkConn store_AB false)).2 in
  project_related "P1" deliverables (db c') = ["A"; "B"] ∧
  project_related "P1" ingredients (db c') = ["X"].
Proof. vm_compute. by split. Qed.

Lemma truthy_value_witness :
  let c := mkConn store_AB false in
  let p := fetched "P1" (a_row "Trial X" "Active" ["A"; "B"]) in
  let v := relation_value items_null_between deliverables in
  let t := related_model deliverables in
  (truthy v = false →
   replace_related text_only deliverables (PyDict items_null_between) p c =
   (inr tt, c, [])) ∧
  (truthy v = true → ∀ e, py_iter v = inl e →
   ∃ c', exec (replace_related text_only deliverables
                 (PyDict items_null_between) p) c = (inl e, c') ∧
         project_related (pk p) deliverables (db c') = [] ∧
         dictionary (db c') = dictionary (db c)) ∧
  (truthy v = true → ∀ xs, py_iter v = inr xs →
   (∀ x, x ∈ xs → is_Some (prep_name text_only t x)) →
   ∃ c', exec (replace_related text_only deliverables
                 (PyDict items_null_between) p) c = (inr tt, c') ∧
         holds_rows text_only (pk p) deliverables xs (db c') ∧
         (∀ n, n ∈ project_related (pk p) deliverables (db c') →
               (t, n) ∈ dictionary (db c')) ∧
         (∀ y, y ∈ dictionary (db c') ↔
               y ∈ dictionary (db c) ∨
               ∃ x n, x ∈ xs ∧ prep_name text_only t x = Some n ∧ y = (t, n))) ∧
  (truthy v = true → ∀ pre x post, py_iter v = inr (pre ++ x :: post) →
   (∀ y, y ∈ pre → is_Some (prep_name text_only t y)) →
   prep_name text_only t x = None →
   ∃ c', exec (replace_related text_only deliverables
                 (PyDict items_null_between) p) c =
           (inl DatabaseError, c') ∧
         holds_rows text_only (pk p) deliverables pre (db c') ∧
         (∀ y, y ∈ dictionary (db c') ↔
               y ∈ dictionary (db c) ∨
               ∃ x' n, x' ∈ pre ∧ prep_name text_only t x' = Some n ∧
                       y = (t, n))).
Proof.
  intros c p.
  apply (truthy_value_is_linked_until_refused text_only deliverables
           items_null_between p c (a_row "Trial X" "Active" ["A"; "B"])).
  - reflexivity.
  - vm_compute. reflexivity.
Defined.

(** The list C, null, D of the witness above: the store refuses the null,
    the deliverables of P1 are left as C alone, and no row is made for D. *)
Lemma refused_item_sample :
  let r := exec (reconcile text_only true "proj1.docx"
                   (PyDict items_null_between)) (mkConn store_AB false) in
  r.1 = inl DatabaseError ∧
  project_related "P1" deliverables (db r.2) = ["C"] ∧
  dictionary (db r.2) =
    [(Deliverable, "A"); (Deliverable, "B"); (Deliverable, "C")].
Proof. vm_compute. by repeat split. Qed.

Lemma existing_project_witness :
  let c := mkConn store_AB true in
  process_file text_only sample_loads false file_renamed c =
  (inr tt, c,
   read_trace file_renamed ++ Write stdout None Extracting ::
   extraction_trace sample_loads (reply file_renamed) ++
   [Orm ProjectGetOrCreate;
    if needs_rollback c
    then Write stderr (Some ERROR)
           (DatabaseErrorFor (filename file_renamed) TransactionManagementError)
    else Write stdout (Some WARNING) (SkippingExisting (PyStr "P1"))]).
Proof.
  intros c.
  apply (existing_project_without_update_changes_nothing text_only sample_loads
           file_renamed c items_renamed "P1"
           (a_row "Trial X" "Active" ["A"; "B"])).
  - reflexivity.
  - reflexivity.
  - reflexivity.
  - reflexivity.
  - vm_compute. reflexivity.
Defined.

(** C6 as stated fails: update is disabled and project P1 exists, but the
    document before the one for P1 has its save refused (its status is null
    and the column takes no NULL), which marks the transaction.  The
    document for P1 is then reported as a database error and not as
    skipped; no line of the run says that it was skipped. *)
Lemma existing_project_is_reported_as_error :
  projects store_AB !! "P1" = Some (a_row "Trial X" "Active" ["A"; "B"]) ∧
  extraction more_loads (reply file_renamed) = inr record_renamed ∧
  handle text_only more_loads "docs" (Some [file_null_status; file_renamed])
    false store_AB =
  (inr tt, store_AB,
   [Write stdout (Some SUCCESS) (Starting "docs");
    Write stdout None (ProcessingDocx "p9.docx");
    Write stdout None Extracting;
    Orm ProjectGetOrCreate;
    Write stdout (Some SUCCESS) (CreatedNewProject (PyStr "P9"));
    Orm ProjectSave;
    Write stderr (Some ERROR) (DatabaseErrorFor "p9.docx" DatabaseError);
    Write stdout None (ProcessingDocx "proj1-v2.docx");
    Write stdout None Extracting;
    Orm ProjectGetOrCreate;
    Write stderr (Some ERROR)
      (DatabaseErrorFor "proj1-v2.docx" TransactionManagementError);
    Write stdout (Some SUCCESS) ProcessingComplete]).
Proof. split_and!; vm_compute; reflexivity. Qed.

Lemma run_reports_witness :
  let entries := [file_acme; file_notes; file_blank_pdf; file_no_id] in
  let run := handle text_only sample_loads "docs" (Some entries) false
               empty_store in
  ∃ turns,
    run.2 = Write stdout (Some SUCCESS) (Starting "docs") ::
            concat turns ++ [Write stdout (Some SUCCESS) ProcessingComplete] ∧
    Forall2 turn_reported entries turns ∧
    length (closing_lines run.2) = length (with_text entries) ∧
    last run.2 = Some (Write stdout (Some SUCCESS) ProcessingComplete).
Proof.
  intros entries run.
  apply (run_reports_each_document_and_no_counts text_only sample_loads "docs"
           entries false empty_store run.1.2 run.2).
  vm_compute. reflexivity.
Defined.

(** The run of the witness above: four entries, two of which yield text, and
    two closing lines. *)
Lemma run_reports_sample :
  let entries := [file_acme; file_notes; file_blank_pdf; file_no_id] in
  let run := handle text_only sample_loads "docs" (Some entries) false
               empty_store in
  length entries = 4 ∧
  with_text entries = [file_acme; file_no_id] ∧
  closing_lines run.2 =
    [Write stdout (Some SUCCESS) (SuccessfullyProcessed (PyStr "P1"));
     Write stderr (Some WARNING) (SkippingNoProjectId "untitled.docx")].
Proof. vm_compute. by repeat split. Qed.
